(** * PKCE login flow and claim-based authorization: a shallow embedding

    The development follows the TypeScript sources of the repository:

    - [ui/src/api.ts]                      the PKCE client flow ([Api]);
    - [ui/src/contexts/AuthContext.tsx]    session bootstrap ([AuthContext]);
    - [ui/src/pages/Callback.tsx]          identity derived at callback ([Callback]);
    - [services/*/src/utils/pkce.ts]       challenge derivation ([Pkce]);
    - [services/*/src/utils/config.ts]     configuration cache ([Config]);
    - [services/*/src/app.ts], the controllers and [routes/adminRoutes.ts]
                                           the server side ([Server]).

    Browser and Node built-ins the code calls (atob, JSON.parse, fetch,
    new URL, the SSM client, Date.now) are taken as an interface
    ([Browser], [Node]); universally quantified statements hold for every
    implementation of it.  Executable instances ([Base64.atob],
    [Json.parse], [SHA256.digest], module [Run]) are used to run the code on
    the concrete pages and requests of module [Scenario].

    [middleware/auth.ts] and [ui/src/utils/pkce.ts] are not among the
    sources: the former is modelled from the specification, the latter is
    part of the browser interface. *)

From Stdlib Require Import ZArith List String Ascii Bool Lia.
From stdpp Require Import base option gmap strings list.
Import ListNotations.

Local Open Scope string_scope.
Local Open Scope Z_scope.

(** ** JavaScript strings

    A JavaScript string is modelled by a [string] of 8-bit code units: every
    string the program handles (tokens, hex nonces, header values, JSON text
    produced by atob) is made of code units below 256. *)

Module Str.

Definition chars (s : string) : list ascii := list_ascii_of_string s.
Definition of_chars (l : list ascii) : string := string_of_list_ascii l.

Definition code (c : ascii) : Z := Z.of_N (N_of_ascii c).
Definition of_code (n : Z) : ascii := ascii_of_N (Z.to_N n).

(** The double quote, written by its code. *)
Definition dquote : ascii := of_code 34.

(** [s.replace(/c/g, r)] for a one-character pattern [c]. *)
Fixpoint replaceAll (c : ascii) (r : string) (s : string) : string :=
  match s with
  | EmptyString => EmptyString
  | String a rest =>
      if Ascii.eqb a c then r ++ replaceAll c r rest
      else String a (replaceAll c r rest)
  end.

(** [s.split(sep)] for a one-character separator: always at least one piece. *)
Fixpoint split (sep : ascii) (s : string) : list string :=
  match s with
  | EmptyString => [EmptyString]
  | String a rest =>
      if Ascii.eqb a sep then EmptyString :: split sep rest
      else match split sep rest with
           | [] => [String a EmptyString]
           | p :: ps => String a p :: ps
           end
  end.

(** [s.startsWith(p)], and the rest of [s] after [p]. *)
Fixpoint strip_prefix (p s : string) : option string :=
  match p, s with
  | EmptyString, _ => Some s
  | String a p', String b s' => if Ascii.eqb a b then strip_prefix p' s' else None
  | String _ _, EmptyString => None
  end.

(** Truthiness of a string: only the empty string is falsy. *)
Definition nonempty (s : string) : bool :=
  match s with EmptyString => false | String _ _ => true end.

(** Truthiness of [string | null]. *)
Definition present (item : option string) : bool :=
  match item with
  | Some s => nonempty s
  | None => false
  end.

(** [a || b] on [string | null]. *)
Definition or_item (a b : option string) : option string :=
  if present a then a else b.

(** [a || b] where [a] is [string | null] and [b] a string. *)
Definition item_or (a : option string) (b : string) : string :=
  match a with
  | Some s => if nonempty s then s else b
  | None => b
  end.

(** Decimal digits of a natural number, most significant first. *)
Fixpoint digits_fuel (fuel : nat) (n : Z) (acc : list ascii) : list ascii :=
  match fuel with
  | O => acc
  | S f =>
      let acc' := of_code (48 + n mod 10) :: acc in
      if n / 10 =? 0 then acc' else digits_fuel f (n / 10) acc'
  end.

(** [String(n)] for an integer [n]. *)
Definition of_Z (n : Z) : string :=
  let body := of_chars (digits_fuel (S (Z.to_nat (Z.log2 (Z.abs n)))) (Z.abs n) []) in
  if n <? 0 then String "-" body else body.

End Str.

(** ** JavaScript values

    The values that [JSON.parse] can return, with [undefined] (a missing
    property) and built-in function objects (a prototype method read as a
    property).  Numbers are integers: the numeric claims the program reads
    ([exp], HTTP statuses) are integer valued. *)

#[local] Set Warnings "-register-all".

Inductive value : Type :=
| VUndefined
| VNull
| VBool (b : bool)
| VNum (n : Z)
| VStr (s : string)
| VArr (items : list value)
| VObj (props : list (string * value))
| VNative (name : string).

Module JS.

(** ToBoolean. *)
Definition truthy (v : value) : bool :=
  match v with
  | VUndefined | VNull => false
  | VBool b => b
  | VNum n => negb (n =? 0)
  | VStr s => Str.nonempty s
  | VArr _ | VObj _ | VNative _ => true
  end.

(** [a || b]. *)
Definition or (a b : value) : value := if truthy a then a else b.

(** Own property of an object literal or a parsed object: when a key occurs
    more than once the last occurrence wins, as in [JSON.parse]. *)
Fixpoint own (k : string) (props : list (string * value)) : option value :=
  match props with
  | [] => None
  | (k', v) :: rest =>
      match own k rest with
      | Some v' => Some v'
      | None => if String.eqb k k' then Some v else None
      end
  end.

(** Property read [v.k] (or [v['k']]) for the property names this program
    reads: [exp], [sub], [email], [name], [preferred_username], [username],
    [cognito:groups], [email_verified], [cognitoDomain], [cognitoClientId],
    [authenticated], [user], [access_token], [id_token], [authorizer],
    [claims].  [None] is the TypeError raised on [null] and [undefined].
    Among these names the prototypes of the primitives hold only
    [String.prototype.sub]. *)
Definition get (v : value) (k : string) : option value :=
  match v with
  | VUndefined | VNull => None
  | VObj props => Some (default VUndefined (own k props))
  | VStr _ => Some (if String.eqb k "sub" then VNative "String.prototype.sub" else VUndefined)
  | VBool _ | VNum _ | VArr _ | VNative _ => Some VUndefined
  end.

(** Optional chaining [v?.k]. *)
Definition get_opt (v : value) (k : string) : value :=
  default VUndefined (get v k).

(** ToString, as used by template literals, [setItem] and URLSearchParams
    (numbers below 10^21 in absolute value, which print without exponent). *)
Fixpoint to_string (v : value) : string :=
  match v with
  | VUndefined => "undefined"
  | VNull => "null"
  | VBool true => "true"
  | VBool false => "false"
  | VNum n => Str.of_Z n
  | VStr s => s
  | VArr items =>
      (fix join (l : list value) : string :=
         match l with
         | [] => EmptyString
         | x :: rest =>
             let e := match x with
                      | VUndefined | VNull => EmptyString
                      | _ => to_string x
                      end in
             match rest with
             | [] => e
             | _ :: _ => e ++ "," ++ join rest
             end
         end) items
  | VObj _ => "[object Object]"
  | VNative name => "function " ++ name ++ "() { [native code] }"
  end.

End JS.

(** ** Base64

    Bytes are integers in [0, 256).  [encode alphabet pad] is RFC 4648
    encoding: section 4 with [std] and padding (Node's
    [digest("base64")] and [toString("base64")]), section 5 with [url] and
    no padding (base64url as PKCE uses it). *)

Module Base64.

(** The character of a 6-bit index; [c62] and [c63] are the two characters
    in which the standard and the URL-safe alphabets differ. *)
Definition alphabet (c62 c63 : ascii) (i : Z) : ascii :=
  if i <? 26 then Str.of_code (65 + i)
  else if i <? 52 then Str.of_code (97 + (i - 26))
  else if i <? 62 then Str.of_code (48 + (i - 52))
  else if i =? 62 then c62
  else c63.

Definition std : Z -> ascii := alphabet "+" "/".
Definition url : Z -> ascii := alphabet "-" "_".

Definition sextet (n : Z) (shift : Z) : Z := Z.land (Z.shiftr n shift) 63.

Fixpoint encode (alpha : Z -> ascii) (pad : bool) (bytes : list Z) : string :=
  match bytes with
  | [] => EmptyString
  | [a] =>
      let n := Z.shiftl a 16 in
      String (alpha (sextet n 18)) (String (alpha (sextet n 12))
        (if pad then "==" else EmptyString))
  | [a; b] =>
      let n := Z.lor (Z.shiftl a 16) (Z.shiftl b 8) in
      String (alpha (sextet n 18)) (String (alpha (sextet n 12))
        (String (alpha (sextet n 6)) (if pad then "=" else EmptyString)))
  | a :: b :: c :: rest =>
      let n := Z.lor (Z.lor (Z.shiftl a 16) (Z.shiftl b 8)) c in
      String (alpha (sextet n 18)) (String (alpha (sextet n 12))
        (String (alpha (sextet n 6)) (String (alpha (sextet n 0))
          (encode alpha pad rest))))
  end.

(** The 6-bit index of a character of the standard alphabet. *)
Definition index (c : ascii) : option Z :=
  let n := Str.code c in
  if (65 <=? n) && (n <=? 90) then Some (n - 65)
  else if (97 <=? n) && (n <=? 122) then Some (n - 97 + 26)
  else if (48 <=? n) && (n <=? 57) then Some (n - 48 + 52)
  else if n =? 43 then Some 62
  else if n =? 47 then Some 63
  else None.

Fixpoint indices (cs : list ascii) : option (list Z) :=
  match cs with
  | [] => Some []
  | c :: rest =>
      match index c, indices rest with
      | Some i, Some ixs => Some (i :: ixs)
      | _, _ => None
      end
  end.

Definition octet (n : Z) (shift : Z) : ascii :=
  Str.of_code (Z.land (Z.shiftr n shift) 255).

(** Groups of four sextets give three bytes; a final group of two or three
    gives one or two, the remaining bits being dropped. *)
Fixpoint octets (ixs : list Z) : list ascii :=
  match ixs with
  | a :: b :: c :: d :: rest =>
      let n := Z.lor (Z.lor (Z.lor (Z.shiftl a 18) (Z.shiftl b 12)) (Z.shiftl c 6)) d in
      octet n 16 :: octet n 8 :: octet n 0 :: octets rest
  | [a; b; c] =>
      let n := Z.lor (Z.lor (Z.shiftl a 18) (Z.shiftl b 12)) (Z.shiftl c 6) in
      [octet n 16; octet n 8]
  | [a; b] =>
      let n := Z.lor (Z.shiftl a 18) (Z.shiftl b 12) in
      [octet n 16]
  | _ => []
  end.

Definition is_space (c : ascii) : bool :=
  let n := Str.code c in
  (n =? 9) || (n =? 10) || (n =? 12) || (n =? 13) || (n =? 32).

(** Removes up to two trailing [=] (the input is given reversed). *)
Definition strip_padding (rev_cs : list ascii) : list ascii :=
  match rev_cs with
  | "="%char :: "="%char :: rest => rest
  | "="%char :: rest => rest
  | _ => rev_cs
  end.

(** The browser's [atob] (forgiving-base64 decode of the HTML standard):
    ASCII whitespace is removed; padding is removed when the length is a
    multiple of four; a length of 1 modulo 4 or a character outside the
    standard alphabet raises (here [None]).  The result is a binary string,
    one code unit per byte. *)
Definition atob (s : string) : option string :=
  let cs := filter (fun c => is_space c = false) (Str.chars s) in
  let cs := if Z.of_nat (length cs) mod 4 =? 0
            then rev (strip_padding (rev cs)) else cs in
  if Z.of_nat (length cs) mod 4 =? 1 then None
  else match indices cs with
       | Some ixs => Some (Str.of_chars (octets ixs))
       | None => None
       end.

End Base64.

(** ** SHA-256 (FIPS 180-4), on 32-bit words held in [Z] *)

Module SHA256.

Definition wrap (x : Z) : Z := x mod 2 ^ 32.
Definition add (x y : Z) : Z := wrap (x + y).
Definition rotr (n x : Z) : Z := Z.lor (Z.shiftr x n) (wrap (Z.shiftl x (32 - n))).
Definition lnot32 (x : Z) : Z := Z.lxor x 0xffffffff.

Definition Ch (x y z : Z) : Z := Z.lxor (Z.land x y) (Z.land (lnot32 x) z).
Definition Maj (x y z : Z) : Z :=
  Z.lxor (Z.lxor (Z.land x y) (Z.land x z)) (Z.land y z).
Definition Sigma0 (x : Z) : Z := Z.lxor (Z.lxor (rotr 2 x) (rotr 13 x)) (rotr 22 x).
Definition Sigma1 (x : Z) : Z := Z.lxor (Z.lxor (rotr 6 x) (rotr 11 x)) (rotr 25 x).
Definition sigma0 (x : Z) : Z := Z.lxor (Z.lxor (rotr 7 x) (rotr 18 x)) (Z.shiftr x 3).
Definition sigma1 (x : Z) : Z := Z.lxor (Z.lxor (rotr 17 x) (rotr 19 x)) (Z.shiftr x 10).

(** The constants are given by their definition in the standard: the first
    32 bits of the fractional parts of the cube roots ([K]) and of the
    square roots ([H0]) of the first primes. *)
Definition is_prime (n : nat) : bool :=
  forallb (fun d => negb (Nat.eqb (n mod d) 0)) (seq 2 (n - 2)).

Definition primes : list Z := map Z.of_nat (filter is_prime (seq 2 310)).

(** The integer cube root, one bit at a time from the top. *)
Fixpoint root3 (bits : nat) (n r : Z) : Z :=
  match bits with
  | O => r
  | S b =>
      let r' := r + 2 ^ Z.of_nat b in
      if r' * r' * r' <=? n then root3 b n r' else root3 b n r
  end.

Definition K : list Z :=
  Eval vm_compute in map (fun p => wrap (root3 36 (p * 2 ^ 96) 0)) primes.

Definition H0 : list Z :=
  Eval vm_compute in map (fun p => wrap (Z.sqrt (p * 2 ^ 64))) (firstn 8 primes).

(** Big-endian bytes of a [k]-byte integer. *)
Fixpoint be_bytes (k : nat) (n : Z) : list Z :=
  match k with
  | O => []
  | S k' => Z.land (Z.shiftr n (8 * Z.of_nat k')) 255 :: be_bytes k' n
  end.

(** The message followed by the bit 1, zero bits up to 56 modulo 64 bytes,
    and the bit length on 8 bytes. *)
Definition pad (msg : list Z) : list Z :=
  let len := Z.of_nat (length msg) in
  msg ++ [0x80] ++ repeat 0 (Z.to_nat ((55 - len) mod 64)) ++ be_bytes 8 (8 * len).

(** Big-endian 32-bit words of a byte list. *)
Fixpoint words (bytes : list Z) : list Z :=
  match bytes with
  | a :: b :: c :: d :: rest =>
      Z.lor (Z.lor (Z.lor (Z.shiftl a 24) (Z.shiftl b 16)) (Z.shiftl c 8)) d :: words rest
  | _ => []
  end.

(** The message schedule, newest word first: [extend n ws] adds [n] words
    to a schedule that already holds at least sixteen. *)
Fixpoint extend (n : nat) (ws : list Z) : list Z :=
  match n with
  | O => ws
  | S n' =>
      let w := add (add (add (sigma1 (nth 1 ws 0)) (nth 6 ws 0)) (sigma0 (nth 14 ws 0)))
                   (nth 15 ws 0) in
      extend n' (w :: ws)
  end.

Definition schedule (block : list Z) : list Z := rev (extend 48 (rev block)).

Record regs := Regs { ra : Z; rb : Z; rc : Z; rd : Z; re : Z; rf : Z; rg : Z; rh : Z }.

Definition round (s : regs) (kw : Z * Z) : regs :=
  let t1 := add (add (add (add (rh s) (Sigma1 (re s))) (Ch (re s) (rf s) (rg s))) (fst kw)) (snd kw) in
  let t2 := add (Sigma0 (ra s)) (Maj (ra s) (rb s) (rc s)) in
  Regs (add t1 t2) (ra s) (rb s) (rc s) (add (rd s) t1) (re s) (rf s) (rg s).

Definition of_list (h : list Z) : regs :=
  Regs (nth 0 h 0) (nth 1 h 0) (nth 2 h 0) (nth 3 h 0)
       (nth 4 h 0) (nth 5 h 0) (nth 6 h 0) (nth 7 h 0).

Definition to_list (s : regs) : list Z :=
  [ra s; rb s; rc s; rd s; re s; rf s; rg s; rh s].

Definition compress (h : list Z) (block : list Z) : list Z :=
  let s := fold_left round (combine K (schedule block)) (of_list h) in
  map (fun p => add (fst p) (snd p)) (combine h (to_list s)).

(** Consumes the padded message sixteen words at a time. *)
Fixpoint blocks (n : nat) (h : list Z) (ws : list Z) : list Z :=
  match n with
  | O => h
  | S n' => blocks n' (compress h (firstn 16 ws)) (skipn 16 ws)
  end.

(** The 32-byte digest of a byte list. *)
Definition digest (msg : list Z) : list Z :=
  let ws := words (pad msg) in
  flat_map (be_bytes 4) (blocks (length ws / 16)%nat H0 ws).

End SHA256.

(** ** The PKCE helpers ([utils/pkce.ts], after [utils/config.ts] in the sources) *)

Module Pkce.

(** The UTF-8 bytes of a code unit below 256: itself below 128, two bytes
    from there on. *)
Definition utf8 (c : ascii) : list Z :=
  let n := Str.code c in
  if n <? 128 then [n]
  else [Z.lor 0xC0 (Z.shiftr n 6); Z.lor 0x80 (Z.land n 63)].

(** [hash.update(s)] feeds the UTF-8 bytes of [s]. *)
Definition bytes_of (s : string) : list Z := flat_map utf8 (Str.chars s).

(** [createHash("sha256").update(codeVerifier).digest("base64")] *)
Definition sha256_base64 (codeVerifier : string) : string :=
  Base64.encode Base64.std true (SHA256.digest (bytes_of codeVerifier)).

Definition generateCodeChallenge (codeVerifier : string) : string :=
  Str.replaceAll "=" EmptyString
    (Str.replaceAll "/" "_"
      (Str.replaceAll "+" "-" (sha256_base64 codeVerifier))).

(** [generateRandomString(length)], given the bytes that
    [randomBytes(Math.ceil(length * 3 / 4))] returned. *)
Definition generateRandomString (random : list Z) (length : nat) : string :=
  Str.of_chars (firstn length (Str.chars
    (Str.replaceAll "=" EmptyString
      (Str.replaceAll "/" "_"
        (Str.replaceAll "+" "-" (Base64.encode Base64.std true random)))))).

(** base64url(SHA-256(verifier)) in the words of RFC 7636, section 4.2:
    the URL-safe alphabet of RFC 4648 section 5, without padding. *)
Definition base64url (bytes : list Z) : string :=
  Base64.encode Base64.url false bytes.

Definition S256 (codeVerifier : string) : string :=
  base64url (SHA256.digest (bytes_of codeVerifier)).

End Pkce.

(** ** A JSON reader

    An executable [JSON.parse] for the integer model of [value]: objects,
    arrays, strings with the two-character escapes, integers, [true],
    [false] and [null].  Numbers with a fraction or an exponent and [\u]
    escapes are outside the model and are not read.  It serves to run the
    program on concrete tokens and headers; the statements about the program
    are made for every [JSON.parse]. *)

Module Json.

Definition is_ws (c : ascii) : bool :=
  let n := Str.code c in (n =? 32) || (n =? 9) || (n =? 10) || (n =? 13).

Fixpoint skip_ws (cs : list ascii) : list ascii :=
  match cs with
  | c :: rest => if is_ws c then skip_ws rest else cs
  | [] => []
  end.

Definition is_digit (c : ascii) : bool :=
  let n := Str.code c in (48 <=? n) && (n <=? 57).

(** The digits at the head of the input, as a number, and what follows. *)
Fixpoint read_digits (acc : Z) (cs : list ascii) : Z * list ascii :=
  match cs with
  | c :: rest =>
      if is_digit c then read_digits (10 * acc + (Str.code c - 48)) rest
      else (acc, cs)
  | [] => (acc, [])
  end.

Definition after_number_ok (cs : list ascii) : bool :=
  match cs with
  | c :: _ => negb (Ascii.eqb c "." || Ascii.eqb c "e" || Ascii.eqb c "E")
  | [] => true
  end.

(** An integer without sign: a single [0], or digits not starting with [0]. *)
Definition read_nat (cs : list ascii) : option (Z * list ascii) :=
  match cs with
  | c :: rest =>
      if Ascii.eqb c "0" then
        match rest with
        | d :: _ => if is_digit d then None
                    else if after_number_ok rest then Some (0, rest) else None
        | [] => Some (0, [])
        end
      else if is_digit c then
        let '(n, rest') := read_digits 0 cs in
        if after_number_ok rest' then Some (n, rest') else None
      else None
  | [] => None
  end.

Definition unescape (c : ascii) : option ascii :=
  if Ascii.eqb c Str.dquote then Some Str.dquote
  else if Ascii.eqb c "\" then Some "\"%char
  else if Ascii.eqb c "/" then Some "/"%char
  else if Ascii.eqb c "b" then Some (Str.of_code 8)
  else if Ascii.eqb c "f" then Some (Str.of_code 12)
  else if Ascii.eqb c "n" then Some (Str.of_code 10)
  else if Ascii.eqb c "r" then Some (Str.of_code 13)
  else if Ascii.eqb c "t" then Some (Str.of_code 9)
  else None.

(** The characters of a string literal after its opening quote. *)
Fixpoint read_string (cs : list ascii) : option (list ascii * list ascii) :=
  match cs with
  | [] => None
  | c :: rest =>
      if Ascii.eqb c Str.dquote then Some ([], rest)
      else if Ascii.eqb c "\" then
        match rest with
        | e :: rest' =>
            match unescape e, read_string rest' with
            | Some u, Some (s, r) => Some (u :: s, r)
            | _, _ => None
            end
        | [] => None
        end
      else if Str.code c <? 32 then None
      else match read_string rest with
           | Some (s, r) => Some (c :: s, r)
           | None => None
           end
  end.

Definition literal (word : string) (v : value) (cs : list ascii)
  : option (value * list ascii) :=
  match Str.strip_prefix word (Str.of_chars cs) with
  | Some rest => Some (v, Str.chars rest)
  | None => None
  end.

(** One value at the head of the input.  The fuel bounds the number of
    nested calls; [parse] gives more than any input can use. *)
Fixpoint read_value (fuel : nat) (cs : list ascii) : option (value * list ascii) :=
  match fuel with
  | O => None
  | S fuel' =>
      match skip_ws cs with
      | [] => None
      | c :: rest =>
          if Ascii.eqb c "{" then
            match skip_ws rest with
            | "}"%char :: rest' => Some (VObj [], rest')
            | _ =>
                match read_members fuel' rest with
                | Some (props, rest') => Some (VObj props, rest')
                | None => None
                end
            end
          else if Ascii.eqb c "[" then
            match skip_ws rest with
            | "]"%char :: rest' => Some (VArr [], rest')
            | _ =>
                match read_elements fuel' rest with
                | Some (items, rest') => Some (VArr items, rest')
                | None => None
                end
            end
          else if Ascii.eqb c Str.dquote then
            match read_string rest with
            | Some (s, rest') => Some (VStr (Str.of_chars s), rest')
            | None => None
            end
          else if Ascii.eqb c "-" then
            match read_nat rest with
            | Some (n, rest') => Some (VNum (- n), rest')
            | None => None
            end
          else if is_digit c then
            match read_nat (c :: rest) with
            | Some (n, rest') => Some (VNum n, rest')
            | None => None
            end
          else if Ascii.eqb c "t" then literal "true" (VBool true) (c :: rest)
          else if Ascii.eqb c "f" then literal "false" (VBool false) (c :: rest)
          else if Ascii.eqb c "n" then literal "null" VNull (c :: rest)
          else None
      end
  end

(** [value (, value)* ]] *)
with read_elements (fuel : nat) (cs : list ascii) : option (list value * list ascii) :=
  match fuel with
  | O => None
  | S fuel' =>
      match read_value fuel' cs with
      | Some (v, rest) =>
          match skip_ws rest with
          | "]"%char :: rest' => Some ([v], rest')
          | ","%char :: rest' =>
              match read_elements fuel' rest' with
              | Some (vs, rest'') => Some (v :: vs, rest'')
              | None => None
              end
          | _ => None
          end
      | None => None
      end
  end

(** [string : value (, string : value)* }] *)
with read_members (fuel : nat) (cs : list ascii)
  : option (list (string * value) * list ascii) :=
  match fuel with
  | O => None
  | S fuel' =>
      match skip_ws cs with
      | q :: rest =>
          if Ascii.eqb q Str.dquote then
            match read_string rest with
            | Some (k, rest1) =>
                match skip_ws rest1 with
                | ":"%char :: rest2 =>
                    match read_value fuel' rest2 with
                    | Some (v, rest3) =>
                        match skip_ws rest3 with
                        | "}"%char :: rest4 => Some ([(Str.of_chars k, v)], rest4)
                        | ","%char :: rest4 =>
                            match read_members fuel' rest4 with
                            | Some (ps, rest5) => Some ((Str.of_chars k, v) :: ps, rest5)
                            | None => None
                            end
                        | _ => None
                        end
                    | None => None
                    end
                | _ => None
                end
            | None => None
            end
          else None
      | [] => None
      end
  end.

(** A whole text: one value, then only white space. *)
Definition parse (text : string) : option value :=
  let cs := Str.chars text in
  match read_value (2 * length cs + 2) cs with
  | Some (v, rest) =>
      match skip_ws rest with
      | [] => Some v
      | _ :: _ => None
      end
  | None => None
  end.

End Json.

(** ** Built-ins taken as an interface *)

(** Exceptions: [new Error(message)] and the built-in ones. *)
Inductive exn :=
| Error (message : string)
| TypeError
| SyntaxError.

(** Language-level built-ins.  [None] stands for the exception the built-in
    raises ([JSON_parse]) or for NaN ([StringToNumber]). *)
Class Lang := {
  JSON_parse : string -> option value;
  StringToNumber : string -> option Z;
}.

Module Http.

Inductive Body :=
| NoBody
| Form (params : list (string * string)).  (* URLSearchParams(...).toString() *)

(** A request as [fetch] sends it.  Header names are in lower case, as a
    [Headers] object holds them. *)
Record Request := {
  method : string;
  url : string;
  headers : gmap string string;
  body : Body;
}.

Record Response := {
  status : Z;
  statusText : string;
  text : string;  (* the body, as response.text() resolves it *)
}.

Definition ok (r : Response) : bool := (200 <=? status r) && (status r <=? 299).

Definition GET (u : string) (h : gmap string string) : Request :=
  {| method := "GET"; url := u; headers := h; body := NoBody |}.

End Http.

(** What the page gets from the browser.  [network n req] is the outcome of
    the [n]-th request sent since the page was loaded: a response, or [None]
    when [fetch] rejects.  The helpers of [ui/src/utils/pkce.ts] are not
    among the sources and are taken as they are imported. *)
Class Browser {L : Lang} := {
  atob : string -> option string;
  network : nat -> Http.Request -> option Http.Response;
  getRandomValues : nat -> nat -> list Z;       (* draw number, byte count *)
  URL_valid : string -> bool;                    (* new URL(s) does not throw *)
  API_BASE_URL : string;                         (* VITE_USER_API_BASE_URL *)
  generateCodeVerifier : nat -> string;          (* draw number *)
  generateCodeChallenge : string -> string;
}.

(** ** [ui/src/api.ts] *)

Module Api.

Definition TOKEN_STORAGE_KEY := "cognito_access_token".
Definition ID_TOKEN_STORAGE_KEY := "cognito_id_token".
Definition CODE_VERIFIER_KEY := "pkce_code_verifier".
Definition STATE_KEY := "oauth_state".
Definition REDIRECT_URI_KEY := "oauth_redirect_uri".

(** A full-page navigation: the URL assigned to [window.location.href]. *)
Record Navigation := {
  target : string;
  query : list (string * string);
}.

(** The state of one page: session storage of the tab, the module variables
    of [api.ts], the location, and the requests sent so far. *)
Record World := {
  sessionStorage : gmap string string;
  COGNITO_DOMAIN : value;        (* string | null, assigned from parsed JSON *)
  COGNITO_CLIENT_ID : value;
  origin : string;               (* window.location.origin *)
  href : option Navigation;      (* set when the page navigates away *)
  sent : list Http.Request;
  draws : nat;                   (* random draws made so far *)
}.

Definition with_storage (s : gmap string string) (w : World) : World :=
  {| sessionStorage := s; COGNITO_DOMAIN := COGNITO_DOMAIN w;
     COGNITO_CLIENT_ID := COGNITO_CLIENT_ID w; origin := origin w;
     href := href w; sent := sent w; draws := draws w |}.

Definition with_domain (d : value) (w : World) : World :=
  {| sessionStorage := sessionStorage w; COGNITO_DOMAIN := d;
     COGNITO_CLIENT_ID := COGNITO_CLIENT_ID w; origin := origin w;
     href := href w; sent := sent w; draws := draws w |}.

Definition with_client_id (c : value) (w : World) : World :=
  {| sessionStorage := sessionStorage w; COGNITO_DOMAIN := COGNITO_DOMAIN w;
     COGNITO_CLIENT_ID := c; origin := origin w;
     href := href w; sent := sent w; draws := draws w |}.

Definition with_href (n : Navigation) (w : World) : World :=
  {| sessionStorage := sessionStorage w; COGNITO_DOMAIN := COGNITO_DOMAIN w;
     COGNITO_CLIENT_ID := COGNITO_CLIENT_ID w; origin := origin w;
     href := Some n; sent := sent w; draws := draws w |}.

Definition with_sent (l : list Http.Request) (w : World) : World :=
  {| sessionStorage := sessionStorage w; COGNITO_DOMAIN := COGNITO_DOMAIN w;
     COGNITO_CLIENT_ID := COGNITO_CLIENT_ID w; origin := origin w;
     href := href w; sent := l; draws := draws w |}.

Definition with_draws (n : nat) (w : World) : World :=
  {| sessionStorage := sessionStorage w; COGNITO_DOMAIN := COGNITO_DOMAIN w;
     COGNITO_CLIENT_ID := COGNITO_CLIENT_ID w; origin := origin w;
     href := href w; sent := sent w; draws := n |}.

(** A freshly loaded page: module variables are [null], nothing was sent. *)
Definition load_page (storage : gmap string string) (o : string) : World :=
  {| sessionStorage := storage; COGNITO_DOMAIN := VNull; COGNITO_CLIENT_ID := VNull;
     origin := o; href := None; sent := []; draws := 0 |}.

(** Computations of the page: state passing with exceptions.  The state
    reached is kept when an exception is raised, as assignments made before
    a [throw] are. *)
Definition M (A : Type) : Type := World -> (exn + A) * World.

Definition ret {A} (a : A) : M A := fun w => (inr a, w).
Definition throw {A} (e : exn) : M A := fun w => (inl e, w).
Definition bind {A B} (m : M A) (k : A -> M B) : M B :=
  fun w => match m w with
           | (inr a, w') => k a w'
           | (inl e, w') => (inl e, w')
           end.
(** [try { m } catch (e) { h e }] *)
Definition try_catch {A} (m : M A) (h : exn -> M A) : M A :=
  fun w => match m w with
           | (inr a, w') => (inr a, w')
           | (inl e, w') => h e w'
           end.
Definition get_world : M World := fun w => (inr w, w).
Definition modify (f : World -> World) : M unit := fun w => (inr tt, f w).

Module Notations.
Notation "'let*' x ':=' m 'in' k" := (bind m (fun x => k))
  (at level 10, x name, m at level 100, k at level 200).
Notation "m ';;' k" := (bind m (fun _ => k))
  (at level 100, k at level 200, right associativity).
End Notations.
Import Notations.

Definition getItem (k : string) (w : World) : option string := sessionStorage w !! k.
Definition setItem (k v : string) : M unit :=
  modify (fun w => with_storage (<[k := v]> (sessionStorage w)) w).
Definition removeItem (k : string) : M unit :=
  modify (fun w => with_storage (delete k (sessionStorage w)) w).

Section page.
Context {L : Lang} {B : Browser}.

(** [await fetch(...)]: the request is recorded whether or not it succeeds. *)
Definition fetch (req : Http.Request) : M Http.Response :=
  fun w =>
    let w' := with_sent (sent w ++ [req]) w in
    match network (length (sent w)) req with
    | Some r => (inr r, w')
    | None => (inl TypeError, w')
    end.

(** [await response.json()] *)
Definition json (r : Http.Response) : M value :=
  match JSON_parse (Http.text r) with
  | Some v => ret v
  | None => throw SyntaxError
  end.

(** Property read, raising TypeError on [null] and [undefined]. *)
Definition prop (v : value) (k : string) : M value :=
  match JS.get v k with
  | Some x => ret x
  | None => throw TypeError
  end.

Definition configured (w : World) : bool :=
  JS.truthy (COGNITO_DOMAIN w) && JS.truthy (COGNITO_CLIENT_ID w).

Definition loadCognitoConfig : M unit :=
  let* w := get_world in
  if configured w then ret tt
  else
    try_catch
      (let* response := fetch (Http.GET (API_BASE_URL ++ "/v1/config") ∅) in
       if negb (Http.ok response)
       then throw (Error ("Failed to load Cognito config: " ++ Http.statusText response))
       else
         let* config := json response in
         let* domain := prop config "cognitoDomain" in
         modify (with_domain domain);;
         let* clientId := prop config "cognitoClientId" in
         modify (with_client_id clientId);;
         (* debugging profile route *)
         let* profileResponse := fetch (Http.GET (API_BASE_URL ++ "/v1/profile") ∅) in
         let* profileData := json profileResponse in
         ret tt)
      (fun _ => throw (Error "Failed to load Cognito configuration")).

Definition getRedirectUri (w : World) : string := origin w ++ "/callback".

Definition hex_digit (n : Z) : ascii :=
  if n <? 10 then Str.of_code (48 + n) else Str.of_code (97 + (n - 10)).

(** [byte.toString(16).padStart(2, "0")] *)
Definition hex2 (byte : Z) : string :=
  String (hex_digit (byte / 16)) (String (hex_digit (byte mod 16)) EmptyString).

Definition generateState : M string :=
  let* w := get_world in
  modify (with_draws (S (draws w)));;
  ret (String.concat EmptyString (map hex2 (getRandomValues (draws w) 16))).

Definition draw_verifier : M string :=
  let* w := get_world in
  modify (with_draws (S (draws w)));;
  ret (generateCodeVerifier (draws w)).

Definition require_config : M (string * string) :=
  let* w := get_world in
  if negb (JS.truthy (COGNITO_DOMAIN w)) || negb (JS.truthy (COGNITO_CLIENT_ID w))
  then throw (Error "Cognito configuration not available")
  else ret (JS.to_string (COGNITO_DOMAIN w), JS.to_string (COGNITO_CLIENT_ID w)).

Definition startLogin : M unit :=
  loadCognitoConfig;;
  let* cfg := require_config in
  let* state := generateState in
  let* codeVerifier := draw_verifier in
  let codeChallenge := generateCodeChallenge codeVerifier in
  let* w := get_world in
  setItem CODE_VERIFIER_KEY codeVerifier;;
  setItem STATE_KEY state;;
  setItem REDIRECT_URI_KEY (getRedirectUri w);;
  if negb (URL_valid (fst cfg ++ "/oauth2/authorize")) then throw TypeError
  else
    modify (with_href
      {| target := fst cfg ++ "/oauth2/authorize";
         query := [ ("client_id", snd cfg);
                    ("response_type", "code");
                    ("scope", "openid email");
                    ("redirect_uri", getRedirectUri w);
                    ("state", state);
                    ("code_challenge", codeChallenge);
                    ("code_challenge_method", "S256") ] |}).

(** The check of line 96:
    [!storedState || state !== storedState || !codeVerifier]. *)
Definition state_rejected (state : string) (storedState codeVerifier : option string) : bool :=
  negb (Str.present storedState)
  || negb (bool_decide (Some state = storedState))
  || negb (Str.present codeVerifier).

Definition token_request (domain clientId code redirectUri codeVerifier : string)
  : Http.Request :=
  {| Http.method := "POST";
     Http.url := domain ++ "/oauth2/token";
     Http.headers := {[ "content-type" := "application/x-www-form-urlencoded" ]};
     Http.body := Http.Form [ ("grant_type", "authorization_code");
                              ("client_id", clientId);
                              ("code", code);
                              ("redirect_uri", redirectUri);
                              ("code_verifier", codeVerifier) ] |}.

Definition exchangeCodeForTokens (code state : string) : M value :=
  loadCognitoConfig;;
  let* cfg := require_config in
  let* w := get_world in
  let storedState := getItem STATE_KEY w in
  let codeVerifier := getItem CODE_VERIFIER_KEY w in
  let storedRedirectUri := getItem REDIRECT_URI_KEY w in
  if state_rejected state storedState codeVerifier
  then throw (Error "Invalid state or missing code verifier")
  else
    let redirectUri := Str.item_or storedRedirectUri (getRedirectUri w) in
    let* response := fetch (token_request (fst cfg) (snd cfg) code redirectUri
                                          (default EmptyString codeVerifier)) in
    if negb (Http.ok response)
    then throw (Error ("Token exchange failed: " ++ Http.text response))
    else
      let* tokens := json response in
      removeItem CODE_VERIFIER_KEY;;
      removeItem STATE_KEY;;
      removeItem REDIRECT_URI_KEY;;
      ret tokens.

Definition storeAccessToken (token : string) : M unit := setItem TOKEN_STORAGE_KEY token.
Definition storeIdToken (token : string) : M unit := setItem ID_TOKEN_STORAGE_KEY token.
Definition getAccessToken (w : World) : option string := getItem TOKEN_STORAGE_KEY w.
Definition getIdToken (w : World) : option string := getItem ID_TOKEN_STORAGE_KEY w.

Definition clearTokens : M unit :=
  removeItem TOKEN_STORAGE_KEY;;
  removeItem ID_TOKEN_STORAGE_KEY;;
  removeItem CODE_VERIFIER_KEY;;
  removeItem STATE_KEY;;
  removeItem REDIRECT_URI_KEY.

(** [getIdToken() || getAccessToken()], when truthy. *)
Definition bearer (w : World) : option string :=
  let token := Str.or_item (getIdToken w) (getAccessToken w) in
  if Str.present token then token else None.

Definition profile_request (token : string) : Http.Request :=
  Http.GET (API_BASE_URL ++ "/v1/profile") {[ "authorization" := "Bearer " ++ token ]}.

Definition getCurrentUser : M value :=
  let* w := get_world in
  match bearer w with
  | None => ret VNull
  | Some token =>
      try_catch
        (let* res := fetch (profile_request token) in
         if negb (Http.ok res) then ret VNull
         else
           let* data := json res in
           let* authenticated := prop data "authenticated" in
           if JS.truthy authenticated then prop data "user" else ret VNull)
        (fun _ => ret VNull)
  end.

(** The [RequestInit] passed by the caller, its headers as
    [new Headers(options.headers)] holds them. *)
Record RequestInit := {
  init_method : string;
  init_headers : gmap string string;
  init_body : Http.Body;
}.

(** [{ ...options, headers }] after [headers.set("Authorization", ...)] *)
Definition authorized (url : string) (options : RequestInit) (token : string)
  : Http.Request :=
  {| Http.method := init_method options;
     Http.url := url;
     Http.headers := <[ "authorization" := "Bearer " ++ token ]> (init_headers options);
     Http.body := init_body options |}.

Definition authenticatedFetch (url : string) (options : RequestInit) : M Http.Response :=
  let* w := get_world in
  match bearer w with
  | None => throw (Error "No access token or ID token available")
  | Some token => fetch (authorized url options token)
  end.

End page.

Section logout.
Context {L : Lang} {B : Browser}.

(** The browser's [encodeURIComponent], applied to the origin of the page. *)
Variable encodeURIComponent : string -> string.

(** The template literal of lines 155-157. *)
Definition logoutUrl (w : World) : string :=
  JS.to_string (COGNITO_DOMAIN w) ++ "/logout?client_id="
  ++ JS.to_string (COGNITO_CLIENT_ID w) ++ "&logout_uri="
  ++ encodeURIComponent (origin w).

Definition doLogout : M unit :=
  loadCognitoConfig;;
  clearTokens;;
  let* w := get_world in
  modify (with_href {| target := logoutUrl w; query := [] |}).

End logout.

End Api.

(** ** [ui/src/contexts/AuthContext.tsx] *)

Module AuthContext.

(** The provider's React state over the page. *)
Record App := {
  world : Api.World;
  user : value;       (* User | null *)
  loading : bool;
}.

Definition mounted (w : Api.World) : App :=
  {| world := w; user := VNull; loading := true |}.

(** What the effect leaves running when it returns: nothing, or the call of
    [getCurrentUser()] with [userFromToken] captured by its handlers. *)
Inductive Pending :=
| Settled
| ProfileCall (userFromToken : value).

Section provider.
Context {L : Lang} {B : Browser}.

(** [JSON.parse(atob(token.split('.')[1]))]; [None] when any step raises.
    A token without a dot gives [atob(undefined)], which reads its argument
    as the string [undefined]. *)
Definition decode (token : string) : option value :=
  match atob (default "undefined" (Str.split "." token !! 1%nat)) with
  | Some text => JSON_parse text
  | None => None
  end.

(** ToNumber; [None] is NaN. *)
Definition to_number (v : value) : option Z :=
  match v with
  | VUndefined => None
  | VNull => Some 0
  | VBool b => Some (if b then 1 else 0)
  | VNum n => Some n
  | VStr s => StringToNumber s
  | VArr _ | VObj _ | VNative _ => StringToNumber (JS.to_string v)
  end.

(** [exp && exp < now] *)
Definition expired (exp : value) (now : Z) : bool :=
  JS.truthy exp &&
  match to_number exp with
  | Some n => n <? now
  | None => false
  end.

(** The object literal of lines 52-58. *)
Definition userFromToken (decoded : value) : value :=
  VObj [ ("sub", JS.get_opt decoded "sub");
         ("email", JS.get_opt decoded "email");
         ("name", JS.or (JS.or (JS.get_opt decoded "name")
                               (JS.get_opt decoded "preferred_username"))
                        (JS.get_opt decoded "username"));
         ("groups", JS.or (JS.get_opt decoded "cognito:groups") (VArr []));
         ("email_verified", JS.get_opt decoded "email_verified") ].

(** [clearTokens(); setLoading(false); return;] *)
Definition purge (a : App) : App * Pending :=
  ({| world := snd (Api.clearTokens (world a)); user := user a; loading := false |},
   Settled).

(** The decoded payload and its [exp]; [None] when the [try] block raises
    before the expiry test (undecodable token, or a payload that is [null]). *)
Definition decode_exp (token : string) : option (value * value) :=
  match decode token with
  | Some decoded =>
      match JS.get decoded "exp" with
      | Some exp => Some (decoded, exp)
      | None => None
      end
  | None => None
  end.

(** The synchronous part of the mount effect, [now] being
    [Math.floor(Date.now() / 1000)]. *)
Definition onMount (now : Z) (a : App) : App * Pending :=
  let accessToken := Api.getAccessToken (world a) in
  let idToken := Api.getIdToken (world a) in
  if Str.present accessToken || Str.present idToken then
    if Str.present idToken then
      match decode_exp (default EmptyString idToken) with
      | Some (decoded, exp) =>
          if expired exp now then purge a
          else
            ({| world := world a; user := userFromToken decoded; loading := loading a |},
             ProfileCall (userFromToken decoded))
      | None => purge a
      end
    else
      match decode_exp (default EmptyString accessToken) with
      | Some (decoded, exp) =>
          if expired exp now then purge a
          else (a, ProfileCall VNull)
      | None => purge a
      end
  else
    ({| world := world a; user := user a; loading := false |}, Settled).

(** The handlers attached to [getCurrentUser()]: [then], [catch], [finally]. *)
Definition onProfile (userFromToken : value) (a : App) : App :=
  let '(result, w) := Api.getCurrentUser (world a) in
  {| world := w;
     user := match result with
             | inr userData => if JS.truthy userData then userData else user a
             | inl _ => user a
             end;
     loading := false |}.

(** The whole bootstrap: the effect, then the profile call it left running. *)
Definition bootstrap (now : Z) (a : App) : App :=
  match onMount now a with
  | (a', ProfileCall u) => onProfile u a'
  | (a', Settled) => a'
  end.

End provider.

End AuthContext.

(** ** [ui/src/pages/Callback.tsx] *)

Module Callback.

Record Page := {
  app : AuthContext.App;
  error : option exn;       (* setError *)
  route : option string;        (* navigate(path, { replace: true }) *)
  home_in_3s : bool;            (* setTimeout(() => navigate('/'), 3000) *)
}.

Import Api.Notations.

Section callback.
Context {L : Lang} {B : Browser}.

(** The object literal of lines 50-56; TypeError when the payload is [null]. *)
Definition user_of (decoded : value) : option value :=
  match JS.get decoded "sub" with
  | Some sub =>
      Some (VObj [ ("sub", sub);
                   ("email", JS.get_opt decoded "email");
                   ("name", JS.or (JS.or (JS.get_opt decoded "name")
                                         (JS.get_opt decoded "preferred_username"))
                                  (JS.get_opt decoded "username"));
                   ("groups", JS.or (JS.get_opt decoded "cognito:groups") (VArr []));
                   ("email_verified", JS.get_opt decoded "email_verified") ])
  | None => None
  end.

(** The [try] block of lines 47-56: [split] exists on strings only. *)
Definition user_of_id_token (id_token : value) : option value :=
  match id_token with
  | VStr token =>
      match AuthContext.decode token with
      | Some decoded => user_of decoded
      | None => None
      end
  | _ => None
  end.

(** The [then] handler of [exchangeCodeForTokens]: stores the tokens and
    resolves the user. *)
Definition onTokens (tokens : value) : Api.M value :=
  let* access_token := Api.prop tokens "access_token" in
  Api.storeAccessToken (JS.to_string access_token);;
  let* id_token := Api.prop tokens "id_token" in
  (if JS.truthy id_token then Api.storeIdToken (JS.to_string id_token) else Api.ret tt);;
  if JS.truthy id_token then
    match user_of_id_token id_token with
    | Some user => Api.ret user
    | None => Api.getCurrentUser
    end
  else Api.getCurrentUser.

Definition failed (e : exn) (w : Api.World) (p : Page) : Page :=
  {| app := {| AuthContext.world := w; AuthContext.user := AuthContext.user (app p);
               AuthContext.loading := AuthContext.loading (app p) |};
     error := Some e; route := route p; home_in_3s := true |}.

(** [err.message || 'Failed to exchange authorization code'] *)
Definition shown (e : exn) : exn :=
  match e with
  | Error EmptyString => Error "Failed to exchange authorization code"
  | _ => e
  end.

(** The effect of the callback page from line 36 on, for a callback that
    carries a [code] and a [state]. *)
Definition onCallback (code state : string) (p : Page) : Page :=
  let w := AuthContext.world (app p) in
  match (let* tokens := Api.exchangeCodeForTokens code state in onTokens tokens) w with
  | (inr user, w') =>
      if JS.truthy user then
        {| app := {| AuthContext.world := w'; AuthContext.user := user;
                     AuthContext.loading := AuthContext.loading (app p) |};
           error := error p; route := Some "/profile"; home_in_3s := home_in_3s p |}
      else failed (Error "Failed to get user information") w' p
  | (inl e, w') => failed (shown e) w' p
  end.

End callback.

(** The query parameters of the callback URL, as [params.get] returns them. *)
Record Params := {
  code : option string;
  state : option string;
  errorParam : option string;
  errorDescription : option string;
}.

(** The mounted component: what it shows, and the [hasExchanged] ref. *)
Record Component := {
  page : Page;
  hasExchanged : bool;
}.

Section effect.
Context {L : Lang} {B : Browser}.

(** The browser's [decodeURIComponent]; [None] is the URIError it raises. *)
Variable decodeURIComponent : string -> option string.

(** The message of lines 22-24; [None] when [decodeURIComponent] throws. *)
Definition error_message (errorParam : string) (errorDescription : option string)
  : option string :=
  if Str.present errorDescription
  then match decodeURIComponent (default EmptyString errorDescription) with
       | Some d => Some (errorParam ++ ": " ++ d)
       | None => None
       end
  else Some errorParam.

(** The whole effect of the callback page (lines 13-78); [None] when it
    throws. *)
Definition effect (params : Params) (c : Component) : option Component :=
  if hasExchanged c then Some c
  else if Str.present (errorParam params) then
    match error_message (default EmptyString (errorParam params))
                        (errorDescription params) with
    | Some msg =>
        Some {| page := failed (Error msg) (AuthContext.world (app (page c))) (page c);
                hasExchanged := false |}
    | None => None
    end
  else if negb (Str.present (code params)) || negb (Str.present (state params)) then
    Some {| page := failed (Error "Missing authorization code or state")
                      (AuthContext.world (app (page c))) (page c);
            hasExchanged := false |}
  else
    Some {| page := onCallback (default EmptyString (code params))
                      (default EmptyString (state params)) (page c);
            hasExchanged := true |}.

End effect.

End Callback.

(** ** The server side *)

(** What a service gets from Node and from AWS.  [ssm_parameter name] is
    the outcome of [ssmClient.send(new GetParameterCommand({ Name: name }))]:
    [None] when it rejects, otherwise [Parameter?.Value]. *)
Class Node {L : Lang} := {
  ssm_parameter : string -> option (option string);
  env_region : option string;  (* AWS_REGION || AWS_DEFAULT_REGION *)
  URL_origin : string -> option string;  (* new URL(s).origin, None: TypeError *)
  now_iso : string;  (* new Date().toISOString() *)
}.

(** *** [utils/config.ts] *)

Module Config.

(** The module variables. *)
Record Cache := {
  COGNITO_DOMAIN : string;
  CLIENT_ID : string;
  USER_POOL_ID : string;
  COGNITO_REGION : string;
}.

Definition cold : Cache :=
  {| COGNITO_DOMAIN := EmptyString; CLIENT_ID := EmptyString;
     USER_POOL_ID := EmptyString; COGNITO_REGION := EmptyString |}.

(** The longest prefix without a dot, and the rest. *)
Fixpoint label (s : string) : string * string :=
  match s with
  | EmptyString => (EmptyString, EmptyString)
  | String c rest =>
      if Ascii.eqb c "." then (EmptyString, s)
      else let '(l, r) := label rest in (String c l, r)
  end.

(** The pattern [\.auth\.([^.]+)\.amazoncognito\.com] at the head of [s]:
    the group cannot hold a dot and must be followed by one, so it is the
    whole label. *)
Definition region_here (s : string) : option string :=
  match Str.strip_prefix ".auth." s with
  | Some rest =>
      let '(l, r) := label rest in
      if Str.nonempty l then
        match Str.strip_prefix ".amazoncognito.com" r with
        | Some _ => Some l
        | None => None
        end
      else None
  | None => None
  end.

(** [cognitoDomain.match(...)], the group of the leftmost match. *)
Fixpoint domainMatch (s : string) : option string :=
  match region_here s with
  | Some l => Some l
  | None =>
      match s with
      | EmptyString => None
      | String _ rest => domainMatch rest
      end
  end.

Section config.
Context {L : Lang} {N : Node}.

Definition loadConfig (c : Cache) : exn + Cache :=
  if Str.nonempty (COGNITO_DOMAIN c) then inr c
  else
    match ssm_parameter "/cognito/client-id",
          ssm_parameter "/cognito/domain",
          ssm_parameter "/cognito/user-pool-id" with
    | Some clientId, Some cognitoDomain, Some userPoolId =>
        let domain := default EmptyString cognitoDomain in
        inr {| CLIENT_ID := default EmptyString clientId;
               COGNITO_DOMAIN := domain;
               USER_POOL_ID := default EmptyString userPoolId;
               COGNITO_REGION := match domainMatch domain with
                                 | Some r => r
                                 | None => Str.item_or env_region EmptyString
                                 end |}
    | _, _, _ => inl (Error "Failed to load configuration")
    end.

Definition getCognitoConfig (c : Cache) : string * string :=
  (COGNITO_DOMAIN c, CLIENT_ID c).

Record JwtConfig := {
  issuer : string;
  jwksUri : string;
  clientId : string;
  userPoolId : string;
  region : string;
}.

Definition getJwtConfig (c : Cache) : exn + JwtConfig :=
  if negb (Str.nonempty (USER_POOL_ID c)) || negb (Str.nonempty (COGNITO_REGION c))
  then inl (Error "JWT config not loaded. Call loadConfig() first.")
  else
    let issuer := "https://cognito-idp." ++ COGNITO_REGION c ++ ".amazonaws.com/"
                  ++ USER_POOL_ID c in
    inr {| issuer := issuer;
           jwksUri := issuer ++ "/.well-known/jwks.json";
           clientId := CLIENT_ID c;
           userPoolId := USER_POOL_ID c;
           region := COGNITO_REGION c |}.

End config.

End Config.

(** *** Express: requests, responses, middleware *)

Module Express.

(** Modelled from the spec: the [AuthUser] type of [middleware/auth.ts] is not
    among the sources.  The identity attached to a request: subject, email
    and the set of groups. *)
Record AuthUser := {
  sub : string;
  email : string;
  groups : gset string;
}.

(** A request: its headers (names in lower case), and the two properties
    the middleware adds.  [apiGateway] holds
    [req.apiGateway.event.requestContext]. *)
Record Request := {
  headers : gmap string string;
  apiGateway : option value;
  auth : option AuthUser;
}.

(** A request as Express hands it to the first middleware. *)
Definition incoming (h : gmap string string) : Request :=
  {| headers := h; apiGateway := None; auth := None |}.

Record Response := {
  status : Z;
  sent_headers : list (string * string);  (* res.header(name, value) *)
  json : value;
}.

(** What a middleware does: calls [next()], sends a response, or throws. *)
Inductive Outcome :=
| Next (req : Request)
| Send (res : Response)
| Raise (e : exn).

Definition Middleware := Request -> Outcome.

(** [router.use(m1, m2, ...)] followed by a route handler.  An exception
    leaves the router for the error handler of the application. *)
Fixpoint route (stack : list Middleware) (handler : Request -> Response) (req : Request)
  : exn + Response :=
  match stack with
  | [] => inr (handler req)
  | m :: rest =>
      match m req with
      | Next req' => route rest handler req'
      | Send res => inr res
      | Raise e => inl e
      end
  end.

Definition cors_headers : list (string * string) :=
  [ ("Access-Control-Allow-Origin", "*");
    ("Access-Control-Allow-Methods", "GET,POST,PUT,DELETE,OPTIONS");
    ("Access-Control-Allow-Headers", "Content-Type,Authorization") ].

End Express.

(** *** [app.ts], [middleware/auth.ts], the controllers and the admin routes *)

Module Server.

Import Express.

Section service.
Context {L : Lang} {N : Node}.

(** The middleware of [app.ts], lines 32-56. *)
Definition requestContext (req : Request) : Outcome :=
  match headers req !! "x-amzn-request-context" with
  | Some requestContextHeader =>
      if Str.nonempty requestContextHeader then
        match JSON_parse requestContextHeader with
        | Some requestContext =>
            let req' := {| headers := headers req;
                           apiGateway := Some requestContext;
                           auth := auth req |} in
            match JS.get requestContext "authorizer" with
            | Some authorizer =>
                (* when truthy, [authorizer] is assigned to the property it
                   was read from *)
                Next req'
            | None => Next req'  (* TypeError on null, caught and logged *)
            end
        | None => Next req  (* SyntaxError, caught and logged *)
        end
      else Next req
  | None => Next req
  end.

(** Modelled from the spec: [middleware/auth.ts] is not among the sources.
    The claims map of the request context that the gateway forwarded,
    [req.apiGateway?.event?.requestContext?.authorizer?.claims] in the shape
    that [utils/types.ts] declares. *)
Definition forwarded_claims (req : Request) : value :=
  match apiGateway req with
  | Some requestContext =>
      JS.get_opt (JS.get_opt requestContext "authorizer") "claims"
  | None => VUndefined
  end.

Definition strings (items : list value) : option (list string) :=
  mapM (fun v => match v with VStr s => Some s | _ => None end) items.

(** Modelled from the spec: [middleware/auth.ts] is not among the sources.
    A [cognito:groups] field that may be a single string or a list of
    strings, normalized to a set of strings; a missing field is the empty
    set. *)
Definition normalizeGroups (raw : value) : option (gset string) :=
  match raw with
  | VUndefined => Some ∅
  | VStr s => Some {[ s ]}
  | VArr items => list_to_set <$> strings items
  | _ => None
  end.

(** Modelled from the spec: [middleware/auth.ts] is not among the sources.
    The normalized identity of a well-formed claims map: [sub] and [email]
    are strings and the groups field normalizes. *)
Definition identity (claims : value) : option AuthUser :=
  match claims with
  | VObj _ =>
      match JS.get_opt claims "sub", JS.get_opt claims "email",
            normalizeGroups (JS.get_opt claims "cognito:groups") with
      | VStr s, VStr e, Some g => Some {| sub := s; email := e; groups := g |}
      | _, _, _ => None
      end
  | _ => None
  end.

(** Modelled from the spec: [middleware/auth.ts] is not among the sources.
    If the forwarded claims are present and well-formed, attaches the
    normalized identity to the request; otherwise leaves it absent.  Never
    throws. *)
Definition attachAuth : Middleware :=
  fun req =>
    match identity (forwarded_claims req) with
    | Some u => Next {| headers := headers req; apiGateway := apiGateway req;
                        auth := Some u |}
    | None => Next req
    end.

(** Modelled from the spec: [middleware/auth.ts] is not among the sources.
    Fails the request with HTTP 401 and the JSON body
    [{error: "Authentication required"}] if no identity was attached;
    otherwise passes through.  Every response carries the permissive
    cross-origin headers. *)
Definition requireAuth : Middleware :=
  fun req =>
    match auth req with
    | Some _ => Next req
    | None => Send {| status := 401; sent_headers := cors_headers;
                      json := VObj [("error", VStr "Authentication required")] |}
    end.

(** Modelled from the spec: [middleware/auth.ts] is not among the sources.
    Fails with HTTP 403 if the attached identity's group set does not
    contain [name]; otherwise passes through.  The spec fixes the status
    only; the body follows the shape of the 401 one, and a request without
    identity has no group. *)
Definition requireGroup (name : string) : Middleware :=
  fun req =>
    match auth req with
    | Some u =>
        if bool_decide (name ∈ groups u) then Next req
        else Send {| status := 403; sent_headers := cors_headers;
                     json := VObj [("error", VStr "Forbidden")] |}
    | None => Send {| status := 403; sent_headers := cors_headers;
                      json := VObj [("error", VStr "Forbidden")] |}
    end.

(** [routes/adminRoutes.ts] *)
Definition admin_stack : list Middleware :=
  [attachAuth; requireAuth; requireGroup "administrators"].

Definition ping (req : Request) : Response :=
  {| status := 200; sent_headers := [];
     json := VObj [ ("status", VStr "ok");
                    ("message", VStr "Admin endpoint accessible");
                    ("timestamp", VStr now_iso) ] |}.

(** [GET /v1/admin/ping] through the application: the request-context
    middleware of [app.ts], then the admin router. *)
Definition admin_ping (req : Request) : exn + Response :=
  route (requestContext :: admin_stack) ping req.

(** [controllers/profileController.ts] *)
Definition getProfile (req : Request) : Response :=
  match auth req with
  | Some a =>
      {| status := 200; sent_headers := [];
         json := VObj [ ("authenticated", VBool true);
                        ("user", VObj [ ("sub", VStr (sub a));
                                        ("email", VStr (email a));
                                        ("groups", VArr (VStr <$> elements (groups a))) ]);
                        ("status", VStr "ok");
                        ("message", VStr "Profile retrieved successfully");
                        ("timestamp", VStr now_iso) ] |}
  | None =>
      {| status := 401; sent_headers := [];
         json := VObj [ ("error", VStr "Authentication required");
                        ("debug", VStr "req.auth was not set by middleware") ] |}
  end.

(** [GET /v1/profile], a protected route: the request-context middleware,
    claim extraction, the authentication gate, the controller. *)
Definition profile (req : Request) : exn + Response :=
  route [requestContext; attachAuth; requireAuth] getProfile req.

(** [controllers/configController.ts] *)
Definition failed_to_load : Response :=
  {| status := 500; sent_headers := cors_headers;
     json := VObj [("error", VStr "Failed to load configuration")] |}.

Definition getConfig (req : Request) (c : Config.Cache) : Response * Config.Cache :=
  match Config.loadConfig c with
  | inl _ => (failed_to_load, c)
  | inr c' =>
      let config := Config.getCognitoConfig c' in
      match Config.getJwtConfig c' with
      | inl _ => (failed_to_load, c')
      | inr jwtConfig =>
          let origin := Str.item_or (headers req !! "origin")
                          (Str.item_or (headers req !! "referer") EmptyString) in
          let redirectUri :=
            if Str.nonempty origin
            then match URL_origin origin with
                 | Some o => Some (o ++ "/callback")
                 | None => None
                 end
            else Some EmptyString in
          match redirectUri with
          | None => (failed_to_load, c')
          | Some redirectUri =>
              ({| status := 200; sent_headers := cors_headers;
                  json := VObj [ ("cognitoDomain", VStr (fst config));
                                 ("cognitoClientId", VStr (snd config));
                                 ("cognitoRegion", VStr (Config.region jwtConfig));
                                 ("redirectUri", VStr redirectUri) ] |}, c')
          end
      end
  end.

End service.

End Server.

(** ** The Cognito stack ([cognitoStack.ts] and [bin/user-api.ts])

    The strings that the stack writes to the parameter store and registers
    with the user pool client. *)

Module Cdk.

(** [bin/user-api.ts], line 22. *)
Definition cloudfrontUrl (domainName : string) : string := "https://www." ++ domainName.

(** [`${systemName}`.replaceAll(".", "-")] *)
Definition uniquePrefix (systemName : string) : string :=
  Str.replaceAll "." "-" systemName.

(** The value of the parameter [/cognito/domain], [region] being the region
    of the stack. *)
Definition cognitoDomain (systemName region : string) : string :=
  "https://" ++ uniquePrefix systemName ++ ".auth." ++ region ++ ".amazoncognito.com".

Definition callbackUrls (cloudfrontUrl : string) : list string :=
  [cloudfrontUrl ++ "/callback"; "http://localhost:3000/callback"].

Definition logoutUrls (cloudfrontUrl : string) : list string :=
  [cloudfrontUrl; "http://localhost:3000"].

End Cdk.

(** ** An executable platform

    Instances of the interfaces, to run the program on concrete inputs. *)

Module Run.

(** JSON text of a value whose strings need no escape. *)
Fixpoint print (v : value) : string :=
  let quoted (s : string) := String Str.dquote (s ++ String Str.dquote EmptyString) in
  match v with
  | VUndefined | VNative _ => "null"
  | VNull => "null"
  | VBool true => "true"
  | VBool false => "false"
  | VNum n => Str.of_Z n
  | VStr s => quoted s
  | VArr items =>
      "[" ++ (fix elements (l : list value) : string :=
                match l with
                | [] => EmptyString
                | x :: rest =>
                    match rest with
                    | [] => print x
                    | _ :: _ => print x ++ "," ++ elements rest
                    end
                end) items ++ "]"
  | VObj props =>
      "{" ++ (fix members (l : list (string * value)) : string :=
                match l with
                | [] => EmptyString
                | (k, x) :: rest =>
                    match rest with
                    | [] => quoted k ++ ":" ++ print x
                    | _ :: _ => quoted k ++ ":" ++ print x ++ "," ++ members rest
                    end
                end) props ++ "}"
  end.

(** [Number(s)] on decimal integers and on the empty string. *)
Definition string_to_number (s : string) : option Z :=
  match Json.parse s with
  | Some (VNum n) => Some n
  | _ => if Str.nonempty s then None else Some 0
  end.

#[export] Instance lang : Lang :=
  {| JSON_parse := Json.parse; StringToNumber := string_to_number |}.

Definition api : string := "https://api.example.com".

(** A browser over a given network.  The PKCE helpers are those of
    [utils/pkce.ts], the verifier being cut from the random bytes. *)
Definition browser (net : nat -> Http.Request -> option Http.Response)
                   (random : nat -> nat -> list Z) : Browser :=
  {| atob := Base64.atob;
     network := net;
     getRandomValues := random;
     URL_valid := fun _ => true;
     API_BASE_URL := api;
     generateCodeVerifier := fun n => Pkce.generateRandomString (random n 96%nat) 128%nat;
     generateCodeChallenge := Pkce.generateCodeChallenge |}.

(** Random bytes for the examples: the [n]-th draw counts up from [16 n]. *)
Definition counting (n size : nat) : list Z :=
  map (fun i => Z.of_nat (16 * n + i) mod 256) (seq 0 size).

Definition respond (status : Z) (text : string) : Http.Response :=
  {| Http.status := status; Http.statusText := EmptyString; Http.text := text |}.

(** No request gets through. *)
Definition offline : nat -> Http.Request -> option Http.Response :=
  fun _ _ => None.

Definition provider : string := "https://login.example.com".

Definition config_body : value :=
  VObj [ ("cognitoDomain", VStr provider);
         ("cognitoClientId", VStr "client-1");
         ("cognitoRegion", VStr "eu-west-1");
         ("redirectUri", VStr "https://app.example.com/callback") ].

(** The user API answers the configuration and, with [profile], the profile
    route; the provider's token endpoint answers [token]. *)
Definition online (profile token : Http.Response)
  : nat -> Http.Request -> option Http.Response :=
  fun _ req =>
    if String.eqb (Http.url req) (api ++ "/v1/config")
    then Some (respond 200 (print config_body))
    else if String.eqb (Http.url req) (api ++ "/v1/profile") then Some profile
    else if String.eqb (Http.url req) (provider ++ "/oauth2/token") then Some token
    else None.

Definition unauthorized : Http.Response :=
  respond 401 (print (VObj [("message", VStr "Unauthorized")])).

(** [new URL(s).origin] on plain [http] and [https] URLs: the scheme and
    the authority. *)
Definition authority (s : string) : string := fst (
  (fix go (s : string) : string * string :=
     match s with
     | EmptyString => (EmptyString, EmptyString)
     | String c rest =>
         if Ascii.eqb c "/" || Ascii.eqb c "?" || Ascii.eqb c "#"
         then (EmptyString, s)
         else let '(a, r) := go rest in (String c a, r)
     end) s).

Definition url_origin (s : string) : option string :=
  match Str.strip_prefix "https://" s, Str.strip_prefix "http://" s with
  | Some rest, _ =>
      if Str.nonempty (authority rest) then Some ("https://" ++ authority rest) else None
  | None, Some rest =>
      if Str.nonempty (authority rest) then Some ("http://" ++ authority rest) else None
  | None, None => None
  end.

Definition node (ssm : string -> option (option string)) : Node :=
  {| ssm_parameter := ssm;
     env_region := None;
     URL_origin := url_origin;
     now_iso := "2026-01-01T00:00:00.000Z" |}.

Definition parameters (name : string) : option (option string) :=
  if String.eqb name "/cognito/client-id" then Some (Some "client-1")
  else if String.eqb name "/cognito/domain"
  then Some (Some "https://uptick.auth.eu-west-1.amazoncognito.com")
  else if String.eqb name "/cognito/user-pool-id" then Some (Some "eu-west-1_AbCdEf")
  else Some None.

(** The request-context header the gateway forwards for given claims. *)
Definition context_header (claims : value) : string :=
  print (VObj [ ("authorizer", VObj [("claims", claims)]) ]).

Definition claims_with (groups : value) : value :=
  VObj [ ("sub", VStr "u-1"); ("email", VStr "ann@example.com");
         ("cognito:groups", groups) ].

End Run.

(** ** Scenarios

    Concrete pages, tokens and requests on which the program is run. *)

Module Scenario.

Definition here : string := "https://app.example.com".

(** [Math.floor(Date.now() / 1000)] in November 2023. *)
Definition now : Z := 1700000000.

Definition jwt (payload : string) : string :=
  "eyJhbGciOiJSUzI1NiIsInR5cCI6IkpXVCJ9." ++ payload ++ ".c2lnbmF0dXJl".

(** Payload: sub u-1, email ann@example.com, exp 1600000000 (September 2020). *)
Definition expired_id_token : string :=
  jwt "eyJzdWIiOiJ1LTEiLCJlbWFpbCI6ImFubkBleGFtcGxlLmNvbSIsImV4cCI6MTYwMDAwMDAwMH0".

(** The same payload with exp 0 (the epoch). *)
Definition epoch_id_token : string :=
  jwt "eyJzdWIiOiJ1LTEiLCJlbWFpbCI6ImFubkBleGFtcGxlLmNvbSIsImV4cCI6MH0".

(** Payload: sub, email, exp 2000000000, and the groups claim as the list
    holding the string administrators. *)
Definition id_token_groups_list : string :=
  jwt "eyJzdWIiOiJ1LTEiLCJlbWFpbCI6ImFubkBleGFtcGxlLmNvbSIsImNvZ25pdG86Z3JvdXBzIjpbImFkbWluaXN0cmF0b3JzIl0sImV4cCI6MjAwMDAwMDAwMH0".

(** The same payload, the groups claim being the single string
    administrators. *)
Definition id_token_groups_string : string :=
  jwt "eyJzdWIiOiJ1LTEiLCJlbWFpbCI6ImFubkBleGFtcGxlLmNvbSIsImNvZ25pdG86Z3JvdXBzIjoiYWRtaW5pc3RyYXRvcnMiLCJleHAiOjIwMDAwMDAwMDB9".

Definition token_response : value :=
  VObj [ ("access_token", VStr "opaque-access-token");
         ("id_token", VStr id_token_groups_list);
         ("expires_in", VNum 3600);
         ("token_type", VStr "Bearer") ].

(** The provider accepts the code; the gateway rejects the profile call. *)
Definition accepting : Browser :=
  Run.browser (Run.online Run.unauthorized (Run.respond 200 (Run.print token_response)))
              Run.counting.

(** The provider rejects the code with status 400. *)
Definition rejecting : Browser :=
  Run.browser (Run.online Run.unauthorized
                 (Run.respond 400 (Run.print (VObj [("error", VStr "invalid_grant")]))))
              Run.counting.

(** Nothing answers. *)
Definition offline : Browser := Run.browser Run.offline Run.counting.

(** The page on which the user starts the login, after [startLogin]. *)
Definition login_page : Api.World :=
  snd (Api.startLogin (B := accepting) (Api.load_page ∅ here)).

(** The state that [startLogin] generated from the first random draw. *)
Definition issued_state : string := "000102030405060708090a0b0c0d0e0f".

(** The callback page: a new page load in the same tab. *)
Definition callback_page : Api.World :=
  Api.load_page (Api.sessionStorage login_page) here.

(** The callback page of a tab whose stored redirect URI was removed. *)
Definition callback_page_without_redirect : Api.World :=
  Api.load_page (delete Api.REDIRECT_URI_KEY (Api.sessionStorage login_page)) here.

(** A page of a tab that holds a given ID token. *)
Definition page_holding (id_token : string) : Api.World :=
  Api.load_page {[ Api.ID_TOKEN_STORAGE_KEY := id_token;
                   Api.TOKEN_STORAGE_KEY := "opaque-access-token" ]} here.

Definition no_options : Api.RequestInit :=
  {| Api.init_method := "GET"; Api.init_headers := ∅; Api.init_body := Http.NoBody |}.

Definition profile_url : string := Run.api ++ "/v1/profile".

(** The callback page after the provider rejected the code. *)
Definition after_rejection : Api.World :=
  snd (Api.exchangeCodeForTokens (B := rejecting) "abc" issued_state callback_page).

(** The server: a service whose SSM parameters are set. *)
Definition service : Node := Run.node Run.parameters.

(** A request whose request-context header is not JSON. *)
Definition malformed_request : Express.Request :=
  Express.incoming {[ "x-amzn-request-context" := "{oops"; "authorization" := "Bearer x" ]}.

(** A request for which the gateway forwarded claims with the given groups,
    after the request-context middleware of [app.ts]. *)
Definition forwarded (groups : value) : Express.Request :=
  match Server.requestContext (L := Run.lang)
          (Express.incoming
             {[ "x-amzn-request-context" := Run.context_header (Run.claims_with groups) ]}) with
  | Express.Next req => req
  | _ => Express.incoming ∅
  end.

(** The same request after [attachAuth]. *)
Definition attached (groups : value) : Express.Request :=
  match Server.attachAuth (forwarded groups) with
  | Express.Next req => req
  | _ => forwarded groups
  end.

Definition users : value := VArr [VStr "users"].
Definition users_and_administrators : value := VArr [VStr "users"; VStr "administrators"].

(** The configuration as [loadConfig] caches it from the parameters. *)
Definition loaded : Config.Cache :=
  {| Config.COGNITO_DOMAIN := "https://uptick.auth.eu-west-1.amazoncognito.com";
     Config.CLIENT_ID := "client-1";
     Config.USER_POOL_ID := "eu-west-1_AbCdEf";
     Config.COGNITO_REGION := "eu-west-1" |}.

Definition jwt_config : Config.JwtConfig :=
  {| Config.issuer := "https://cognito-idp.eu-west-1.amazonaws.com/eu-west-1_AbCdEf";
     Config.jwksUri :=
       "https://cognito-idp.eu-west-1.amazonaws.com/eu-west-1_AbCdEf/.well-known/jwks.json";
     Config.clientId := "client-1";
     Config.userPoolId := "eu-west-1_AbCdEf";
     Config.region := "eu-west-1" |}.

Definition from_origin : Express.Request :=
  Express.incoming {[ "origin" := "https://app.example.com";
                      "referer" := "https://other.example.com/page" ]}.

Definition from_referer : Express.Request :=
  Express.incoming {[ "referer" := "https://app.example.com/login?next=home" ]}.

Definition member_of (names : list string) : Express.AuthUser :=
  {| Express.sub := "u-1"; Express.email := "ann@example.com";
     Express.groups := list_to_set names |}.

(** The user API answers the configuration request, and nothing answers
    after it: the debugging profile request of [loadCognitoConfig] fails. *)
Definition config_only : Browser :=
  Run.browser (fun n req => if Nat.eqb n 0 then Run.online Run.unauthorized Run.unauthorized n req
                            else None)
              Run.counting.

Definition profile_body : value :=
  VObj [ ("authenticated", VBool true);
         ("user", VObj [ ("sub", VStr "u-1"); ("email", VStr "ann@example.com");
                         ("groups", VArr [VStr "administrators"]) ]);
         ("status", VStr "ok") ].

(** The gateway accepts the token: the profile route answers the user. *)
Definition welcoming : Browser :=
  Run.browser (Run.online (Run.respond 200 (Run.print profile_body))
                          (Run.respond 200 (Run.print token_response)))
              Run.counting.

(** A page of a tab that holds an access token only. *)
Definition page_with_access_token (access_token : string) : Api.World :=
  Api.load_page {[ Api.TOKEN_STORAGE_KEY := access_token ]} here.

(** [decodeURIComponent] on texts that hold no percent sign. *)
Definition unescaped (s : string) : option string := Some s.

(** The query of the callback URL after the user refused access, a code and
    a state being there as well. *)
Definition refused : Callback.Params :=
  {| Callback.code := Some "abc"; Callback.state := Some issued_state;
     Callback.errorParam := Some "access_denied";
     Callback.errorDescription := Some "cancelled" |}.

(** The callback component as it mounts on a page. *)
Definition component (w : Api.World) : Callback.Component :=
  {| Callback.page := {| Callback.app := AuthContext.mounted w; Callback.error := None;
                         Callback.route := None; Callback.home_in_3s := false |};
     Callback.hasExchanged := false |}.

(** A token response that holds no token. *)
Definition tokenless_response : value := VObj [("token_type", VStr "Bearer")].

(** The parameters as the stack of system [uptick.art] writes them in
    region eu-west-1. *)
Definition deployed (name : string) : option (option string) :=
  if String.eqb name "/cognito/client-id" then Some (Some "client-1")
  else if String.eqb name "/cognito/domain"
  then Some (Some (Cdk.cognitoDomain "uptick.art" "eu-west-1"))
  else if String.eqb name "/cognito/user-pool-id" then Some (Some "eu-west-1_AbCdEf")
  else Some None.

(** The domain parameter holds a custom domain. *)
Definition custom_domain (name : string) : option (option string) :=
  if String.eqb name "/cognito/domain" then Some (Some "https://auth.example.com")
  else deployed name.

(** A request whose Origin header is not a URL. *)
Definition from_nowhere : Express.Request :=
  Express.incoming {[ "origin" := "null" ]}.

End Scenario.

(** * Properties *)

(** ** The code challenge *)

Section challenge.

Lemma replaceAll_app (c : ascii) (r a b : string) :
  Str.replaceAll c r (a ++ b) = Str.replaceAll c r a ++ Str.replaceAll c r b.
Proof.
  induction a as [|x a IH]; simpl; [reflexivity|].
  destruct (Ascii.eqb x c); rewrite IH; [|reflexivity].
  generalize (Str.replaceAll c r a) (Str.replaceAll c r b). intros u v.
  clear IH. induction r as [|y r IHr]; [reflexivity|].
  change (String y (r ++ (u ++ v)) = String y ((r ++ u) ++ v)). now rewrite IHr.
Qed.

(** The three replacements of [generateCodeChallenge], in its order. *)
Definition url_safe (s : string) : string :=
  Str.replaceAll "=" EmptyString (Str.replaceAll "/" "_" (Str.replaceAll "+" "-" s)).

Lemma url_safe_app (a b : string) : url_safe (a ++ b) = url_safe a ++ url_safe b.
Proof. unfold url_safe. now rewrite !replaceAll_app. Qed.

Lemma url_safe_cons (c : ascii) (s : string) :
  url_safe (String c s) = url_safe (String c EmptyString) ++ url_safe s.
Proof. exact (url_safe_app (String c EmptyString) s). Qed.

Lemma sextet_range (n shift : Z) : 0 <= Base64.sextet n shift < 64.
Proof.
  unfold Base64.sextet. change 63 with (Z.ones 6).
  rewrite Z.land_ones by lia. apply Z.mod_pos_bound. lia.
Qed.

Lemma below_64 (P : Z -> bool) :
  forallb P (map Z.of_nat (seq 0 64)) = true ->
  forall i, 0 <= i < 64 -> P i = true.
Proof.
  intros HP i Hi. rewrite forallb_forall in HP. apply HP.
  apply in_map_iff. exists (Z.to_nat i). split; [lia|].
  apply in_seq. lia.
Qed.

(** On one character of the standard alphabet the replacements give the
    character of the URL-safe alphabet at the same index. *)
Lemma url_safe_std (i : Z) :
  0 <= i < 64 ->
  url_safe (String (Base64.std i) EmptyString) = String (Base64.url i) EmptyString.
Proof.
  intros Hi. apply String.eqb_eq. revert i Hi.
  apply (below_64 (fun i => String.eqb (url_safe (String (Base64.std i) EmptyString))
                                       (String (Base64.url i) EmptyString))).
  vm_compute. reflexivity.
Qed.

Lemma url_safe_sextet (n shift : Z) (s : string) :
  url_safe (String (Base64.std (Base64.sextet n shift)) s)
  = String (Base64.url (Base64.sextet n shift)) (url_safe s).
Proof.
  rewrite url_safe_cons, url_safe_std by apply sextet_range. reflexivity.
Qed.

(** Standard base64 with padding, made URL-safe by the replacements, is
    base64url without padding.  The encoder consumes three bytes at a time,
    so the induction carries the lists with one and two more bytes. *)
Lemma url_safe_encode (bytes : list Z) :
  url_safe (Base64.encode Base64.std true bytes) = Base64.encode Base64.url false bytes
  /\ (forall a, url_safe (Base64.encode Base64.std true (a :: bytes))
                = Base64.encode Base64.url false (a :: bytes))
  /\ (forall a b, url_safe (Base64.encode Base64.std true (a :: b :: bytes))
                  = Base64.encode Base64.url false (a :: b :: bytes)).
Proof.
  induction bytes as [|c rest (IH0 & IH1 & IH2)].
  - split; [|split]; intros; cbn [Base64.encode];
      rewrite ?url_safe_sextet; reflexivity.
  - split; [exact (IH1 c)|]. split; [exact (fun a => IH2 a c)|].
    intros a b. cbn [Base64.encode].
    rewrite !url_safe_sextet, IH0. reflexivity.
Qed.

End challenge.

(** C9.  The code challenge that [generateCodeChallenge] derives from a
    code verifier is the base64url encoding (URL-safe alphabet, no padding)
    of the SHA-256 digest of the verifier. *)
Theorem generateCodeChallenge_is_S256 (codeVerifier : string) :
  Pkce.generateCodeChallenge codeVerifier = Pkce.S256 codeVerifier.
Proof.
  unfold Pkce.generateCodeChallenge, Pkce.S256, Pkce.base64url, Pkce.sha256_base64.
  destruct (url_safe_encode (SHA256.digest (Pkce.bytes_of codeVerifier))) as [E _].
  exact E.
Qed.

Example sha256_abc :
  SHA256.digest (Pkce.bytes_of "abc") =
  [186; 120; 22; 191; 143; 1; 207; 234; 65; 65; 64; 222; 93; 174; 34; 35;
   176; 3; 97; 163; 150; 23; 122; 156; 180; 16; 255; 97; 242; 0; 21; 173].
Proof. vm_compute. reflexivity. Qed.

(** The test vector of RFC 7636, appendix B. *)
Example rfc7636_appendix_B :
  Pkce.generateCodeChallenge "dBjftJeZ4CVP-mB92K27uhbUJU1p1r_wW1gFWFOEjXk"
  = "E9Melhoa2OwvFrEMTJguCHaoeK1t8URWbuGJSstw-cM".
Proof. vm_compute. reflexivity. Qed.

(** ** The PKCE client flow *)

(** Unfolds the operations of the page down to state passing. *)
Ltac run :=
  unfold Api.exchangeCodeForTokens, Api.startLogin, Api.loadCognitoConfig,
    Api.require_config, Api.generateState, Api.draw_verifier, Api.getCurrentUser,
    Api.authenticatedFetch, Api.clearTokens, Api.removeItem, Api.setItem, Api.fetch,
    Api.json, Api.prop, Api.bind, Api.ret, Api.throw, Api.try_catch, Api.get_world,
    Api.modify in *.

Section client.
Context {L : Lang} {B : Browser}.

Import Api Api.Notations.

(** Loading the configuration touches neither session storage nor the
    location. *)
Lemma loadCognitoConfig_frame (w : World) :
  sessionStorage (snd (loadCognitoConfig w)) = sessionStorage w
  /\ origin (snd (loadCognitoConfig w)) = origin w.
Proof.
  run. repeat (case_match; simplify_eq/=); auto.
Qed.

(** When loading fails, it fails with the one error of its [catch]. *)
Lemma loadCognitoConfig_error (w w1 : World) (e : exn) :
  loadCognitoConfig w = (inl e, w1) -> e = Error "Failed to load Cognito configuration".
Proof.
  run. repeat (case_match; simplify_eq/=); congruence.
Qed.

Lemma state_rejected_spec (state : string) (storedState codeVerifier : option string) :
  state_rejected state storedState codeVerifier = false
  <-> storedState = Some state /\ Str.nonempty state = true
      /\ exists v, codeVerifier = Some v /\ Str.nonempty v = true.
Proof.
  unfold state_rejected, Str.present. split.
  - intros Hr. apply orb_false_elim in Hr as [Hr Hv].
    apply orb_false_elim in Hr as [Hs He].
    apply negb_false_iff, bool_decide_eq_true in He. subst storedState.
    apply negb_false_iff in Hs, Hv.
    destruct codeVerifier as [v|]; [|discriminate]. eauto.
  - intros (-> & Hs & v & -> & Hv). rewrite Hs, Hv.
    rewrite bool_decide_eq_true_2 by reflexivity. reflexivity.
Qed.

Lemma state_rejected_mismatch (state : string) (storedState codeVerifier : option string) :
  storedState ≠ Some state \/ codeVerifier = None ->
  state_rejected state storedState codeVerifier = true.
Proof.
  intros Hbad. destruct (state_rejected state storedState codeVerifier) eqn:E; [reflexivity|].
  apply state_rejected_spec in E as (-> & _ & v & -> & _).
  destruct Hbad; congruence.
Qed.

(** The steps of [exchangeCodeForTokens] once the configuration is there. *)
Lemma exchange_configured (code state : string) (w w1 : World) :
  loadCognitoConfig w = (inr tt, w1) ->
  configured w1 = true ->
  exchangeCodeForTokens code state w =
    if state_rejected state (getItem STATE_KEY w) (getItem CODE_VERIFIER_KEY w)
    then (inl (Error "Invalid state or missing code verifier"), w1)
    else
      (let* response := fetch (token_request
                                 (JS.to_string (COGNITO_DOMAIN w1))
                                 (JS.to_string (COGNITO_CLIENT_ID w1)) code
                                 (Str.item_or (getItem REDIRECT_URI_KEY w) (getRedirectUri w))
                                 (default EmptyString (getItem CODE_VERIFIER_KEY w))) in
       if negb (Http.ok response)
       then throw (Error ("Token exchange failed: " ++ Http.text response))
       else
         let* tokens := json response in
         removeItem CODE_VERIFIER_KEY;;
         removeItem STATE_KEY;;
         removeItem REDIRECT_URI_KEY;;
         ret tokens) w1.
Proof.
  intros Hload Hcfg.
  destruct (loadCognitoConfig_frame w) as [Hs Ho]. rewrite Hload in Hs, Ho. simpl in Hs, Ho.
  unfold configured in Hcfg. apply andb_true_iff in Hcfg as [Hd Hc].
  unfold exchangeCodeForTokens at 1. unfold bind at 1. rewrite Hload.
  unfold bind at 1, require_config, bind at 1, get_world at 1.
  rewrite Hd, Hc. cbn [negb orb ret fst snd]. unfold bind at 1. cbn [get_world].
  unfold getItem, getRedirectUri. rewrite Hs, Ho.
  destruct (state_rejected _ _ _); reflexivity.
Qed.

(** After a successful exchange no state is stored. *)
Lemma exchange_consumes_state (code state : string) (w w' : World) (tokens : value) :
  exchangeCodeForTokens code state w = (inr tokens, w') ->
  getItem STATE_KEY w' = None.
Proof.
  unfold getItem. run. intros Hx.
  repeat (case_match; simplify_eq/=); simplify_map_eq; reflexivity.
Qed.

(** A failed exchange leaves session storage as it was. *)
Lemma exchange_failure_frame (code state : string) (w w' : World) (e : exn) :
  exchangeCodeForTokens code state w = (inl e, w') ->
  sessionStorage w' = sessionStorage w.
Proof.
  destruct (loadCognitoConfig_frame w) as [Hs _].
  unfold exchangeCodeForTokens, bind at 1.
  destruct (loadCognitoConfig w) as [[e0|[]] w1]; simpl in Hs; [congruence|].
  run. intros Hx. repeat (case_match; simplify_eq/=); exact Hs.
Qed.

(** The callback page does not clean up either: when the exchange fails it
    shows the error and schedules the return to the home page, and the PKCE
    fields stay in session storage. *)
Lemma callback_failure_keeps_session (code state : string) (p : Callback.Page)
    (e : exn) (w' : World) :
  exchangeCodeForTokens code state (AuthContext.world (Callback.app p)) = (inl e, w') ->
  sessionStorage (AuthContext.world (Callback.app (Callback.onCallback code state p)))
  = sessionStorage (AuthContext.world (Callback.app p))
  /\ Callback.error (Callback.onCallback code state p) = Some (Callback.shown e)
  /\ Callback.home_in_3s (Callback.onCallback code state p) = true.
Proof.
  intros Hx.
  assert (E : Callback.onCallback code state p
              = Callback.failed (Callback.shown e) w' p).
  { unfold Callback.onCallback. unfold bind at 1. now rewrite Hx. }
  rewrite E. cbn.
  split; [exact (exchange_failure_frame _ _ _ _ _ Hx)|]. split; reflexivity.
Qed.

(** A successful exchange uses the session up: the same callback run again
    fails. *)
Lemma exchange_once (code state : string) (w w' : World) (tokens : value) :
  exchangeCodeForTokens code state w = (inr tokens, w') ->
  exists e, fst (exchangeCodeForTokens code state w') = inl e.
Proof.
  intros Hx. apply exchange_consumes_state in Hx as Hs.
  destruct (loadCognitoConfig w') as [[e|[]] w1] eqn:Hload.
  - unfold exchangeCodeForTokens, bind at 1. rewrite Hload. eauto.
  - destruct (configured w1) eqn:Hcfg.
    + rewrite (exchange_configured code state w' w1 Hload Hcfg).
      rewrite state_rejected_mismatch; [eauto|]. left. rewrite Hs. discriminate.
    + unfold exchangeCodeForTokens, bind at 1. rewrite Hload.
      unfold configured in Hcfg. run.
      destruct (JS.truthy (COGNITO_DOMAIN w1)), (JS.truthy (COGNITO_CLIENT_ID w1));
        simpl in *; try discriminate; eauto.
Qed.

(** [startLogin] stores the three session fields together: once the
    configuration is there, the code verifier, the state and the callback
    URL of the current origin are written to session storage, whether the
    navigation then happens or [new URL] throws. *)
Lemma startLogin_stores_session (w w1 : World) :
  loadCognitoConfig w = (inr tt, w1) ->
  configured w1 = true ->
  sessionStorage (snd (startLogin w))
  = <[ REDIRECT_URI_KEY := getRedirectUri w ]>
      (<[ STATE_KEY := String.concat EmptyString
                         (map hex2 (getRandomValues (draws w1) 16)) ]>
         (<[ CODE_VERIFIER_KEY := generateCodeVerifier (S (draws w1)) ]>
            (sessionStorage w))).
Proof.
  intros Hload Hcfg.
  destruct (loadCognitoConfig_frame w) as [Hs Ho]. rewrite Hload in Hs, Ho. simpl in Hs, Ho.
  unfold configured in Hcfg. apply andb_true_iff in Hcfg as [Hd Hc].
  unfold startLogin, bind at 1. rewrite Hload. clear Hload.
  unfold getRedirectUri. run. rewrite Hd, Hc. cbn.
  destruct (URL_valid _); cbn; rewrite Hs, Ho; reflexivity.
Qed.

End client.

Section client_claims.
Context {L : Lang} {B : Browser}.

Import Api Api.Notations.

(** The token the two operations use is read from session storage alone:
    the ID token when it is stored and not empty, otherwise the access token
    when it is stored and not empty. *)
Lemma bearer_spec (w : World) (token : string) :
  bearer w = Some token
  <-> Str.nonempty token = true
      /\ (getIdToken w = Some token
          \/ (Str.present (getIdToken w) = false /\ getAccessToken w = Some token)).
Proof.
  unfold bearer, Str.or_item, Str.present.
  destruct (getIdToken w) as [i|] eqn:Ei; [destruct (Str.nonempty i) eqn:Ni|];
    (destruct (getAccessToken w) as [a|] eqn:Ea; [destruct (Str.nonempty a) eqn:Na|]);
    rewrite ?Ni; split;
    first [ intros [= <-]; auto | intros (Hn & [[= <-] | [Hp [= <-]]]); congruence
          | intros (Hn & [Hi | [Hp Ha]]); congruence | discriminate ].
Qed.

(** C1, as amended.  [getCurrentUser] and [authenticatedFetch] do not look
    at the expiry of a token.  When no token is stored they send nothing:
    the first returns null and the second fails.  When one is stored they
    send exactly one request, carrying it in the Authorization header,
    whatever its claims. *)
Theorem bearer_sent_whatever_its_expiry (w : World) (url : string) (options : RequestInit) :
  match bearer w with
  | None =>
      getCurrentUser w = (inr VNull, w)
      /\ authenticatedFetch url options w
         = (inl (Error "No access token or ID token available"), w)
  | Some token =>
      sent (snd (getCurrentUser w)) = (sent w ++ [profile_request token])%list
      /\ sent (snd (authenticatedFetch url options w))
         = (sent w ++ [authorized url options token])%list
      /\ Http.headers (profile_request token) !! "authorization"
         = Some ("Bearer " ++ token)
      /\ Http.headers (authorized url options token) !! "authorization"
         = Some ("Bearer " ++ token)
  end.
Proof.
  run. destruct (bearer w) as [token|]; [|split; reflexivity].
  split; [|split; [|split]].
  - repeat (case_match; simplify_eq/=); reflexivity.
  - repeat (case_match; simplify_eq/=); reflexivity.
  - apply lookup_singleton_eq.
  - apply lookup_insert_eq.
Qed.

(** C2, as amended.  When the provided state is not the stored one, when no
    state is stored and when no code verifier is stored,
    [exchangeCodeForTokens] fails, in the same way in the three cases and
    before anything is sent to the provider.  The error is "Invalid state or
    missing code verifier" once the configuration is available; when the
    configuration cannot be loaded, or holds no domain or client id, the
    exchange has failed on that before it looks at the state. *)
Theorem exchange_rejects_invalid_state (code state : string) (w : World) :
  getItem STATE_KEY w ≠ Some state \/ getItem CODE_VERIFIER_KEY w = None ->
  exchangeCodeForTokens code state w
  = match loadCognitoConfig w with
    | (inr _, w1) =>
        if configured w1
        then (inl (Error "Invalid state or missing code verifier"), w1)
        else (inl (Error "Cognito configuration not available"), w1)
    | (inl _, w1) => (inl (Error "Failed to load Cognito configuration"), w1)
    end.
Proof.
  intros Hbad.
  destruct (loadCognitoConfig w) as [[e|[]] w1] eqn:Hload.
  - rewrite (loadCognitoConfig_error w w1 e Hload) in Hload.
    unfold exchangeCodeForTokens, bind at 1. now rewrite Hload.
  - destruct (configured w1) eqn:Hcfg.
    + rewrite (exchange_configured code state w w1 Hload Hcfg).
      now rewrite state_rejected_mismatch.
    + unfold exchangeCodeForTokens, bind at 1. rewrite Hload.
      unfold configured in Hcfg. run.
      destruct (JS.truthy (COGNITO_DOMAIN w1)), (JS.truthy (COGNITO_CLIENT_ID w1));
        simpl in *; try discriminate; reflexivity.
Qed.

(** Without configuration the exchange fails before the state is looked at. *)
Lemma exchange_fails_without_config (code state : string) (w w1 : World) (e : exn) :
  loadCognitoConfig w = (inl e, w1) ->
  exchangeCodeForTokens code state w
  = (inl (Error "Failed to load Cognito configuration"), w1).
Proof.
  intros Hload. rewrite (loadCognitoConfig_error w w1 e Hload) in Hload.
  unfold exchangeCodeForTokens, bind at 1. now rewrite Hload.
Qed.

(** C3, as amended.  Once the configuration is available, the exchange is
    rejected exactly when the stored state is missing, empty or different
    from the provided one, or the stored code verifier is missing or empty.
    Otherwise the token request is sent, with the stored redirect URI when
    there is one and with the callback URL of the current origin when there
    is none. *)
Theorem exchange_needs_state_and_verifier (code state : string) (w w1 : World) :
  loadCognitoConfig w = (inr tt, w1) ->
  configured w1 = true ->
  ((getItem STATE_KEY w ≠ Some state
    \/ Str.nonempty state = false
    \/ Str.present (getItem CODE_VERIFIER_KEY w) = false)
   /\ exchangeCodeForTokens code state w
      = (inl (Error "Invalid state or missing code verifier"), w1))
  \/ (getItem STATE_KEY w = Some state
      /\ Str.nonempty state = true
      /\ Str.present (getItem CODE_VERIFIER_KEY w) = true
      /\ sent (snd (exchangeCodeForTokens code state w))
         = (sent w1 ++
            [ token_request (JS.to_string (COGNITO_DOMAIN w1))
                (JS.to_string (COGNITO_CLIENT_ID w1)) code
                (match getItem REDIRECT_URI_KEY w with
                 | Some uri => if Str.nonempty uri then uri else getRedirectUri w
                 | None => getRedirectUri w
                 end)
                (default EmptyString (getItem CODE_VERIFIER_KEY w)) ])%list).
Proof.
  intros Hload Hcfg.
  rewrite (exchange_configured code state w w1 Hload Hcfg).
  destruct (state_rejected _ _ _) eqn:Hr; [left|right].
  - split; [|reflexivity].
    destruct (decide (getItem STATE_KEY w = Some state)) as [Hs|Hs]; [|auto].
    destruct (Str.nonempty state) eqn:Hne; [|auto].
    destruct (Str.present (getItem CODE_VERIFIER_KEY w)) eqn:Hv; [|auto].
    exfalso. unfold state_rejected in Hr. rewrite Hs, Hv in Hr.
    cbn [Str.present] in Hr. rewrite Hne in Hr.
    rewrite bool_decide_eq_true_2 in Hr by reflexivity. discriminate Hr.
  - apply state_rejected_spec in Hr as (Hs & Hne & v & Hv & Hnv).
    split; [exact Hs|]. split; [exact Hne|]. split; [rewrite Hv; exact Hnv|].
    run. unfold Str.item_or, getRedirectUri.
    repeat (case_match; simplify_eq/=); reflexivity.
Qed.

(** C4, as amended.  When [exchangeCodeForTokens] returns the tokens, the
    code verifier, the state and the redirect URI are gone from session
    storage; when it fails, session storage is as it was. *)
Theorem exchange_clears_session_on_success_only (code state : string) (w : World) :
  match exchangeCodeForTokens code state w with
  | (inr _, w') =>
      getItem CODE_VERIFIER_KEY w' = None
      /\ getItem STATE_KEY w' = None
      /\ getItem REDIRECT_URI_KEY w' = None
  | (inl _, w') => sessionStorage w' = sessionStorage w
  end.
Proof.
  destruct (loadCognitoConfig_frame w) as [Hs _].
  unfold exchangeCodeForTokens, bind at 1.
  destruct (loadCognitoConfig w) as [[e|[]] w1]; simpl in Hs; [exact Hs|].
  unfold getItem. run.
  repeat (case_match; simplify_eq/=); try exact Hs.
  repeat split; simplify_map_eq; reflexivity.
Qed.

End client_claims.

(** *** The flow on concrete pages *)

(** C1, counterexample.  The stored ID token expired in 2020.  In 2023
    [getCurrentUser] sends it in the Authorization header of the profile
    request, and [authenticatedFetch] sends it too and returns the response
    instead of failing for want of a credential. *)
Lemma expired_token_is_sent :
  snd <$> AuthContext.decode_exp (B := Scenario.accepting) Scenario.expired_id_token
    = Some (VNum 1600000000)
  /\ 1600000000 < Scenario.now
  /\ Api.sent (snd (Api.getCurrentUser (B := Scenario.accepting)
                      (Scenario.page_holding Scenario.expired_id_token)))
     = [Api.profile_request (B := Scenario.accepting) Scenario.expired_id_token]
  /\ Http.headers (Api.profile_request (B := Scenario.accepting) Scenario.expired_id_token)
       !! "authorization"
     = Some ("Bearer " ++ Scenario.expired_id_token)
  /\ Api.authenticatedFetch (B := Scenario.accepting) Scenario.profile_url
       Scenario.no_options (Scenario.page_holding Scenario.expired_id_token)
     = (inr Run.unauthorized,
        Api.with_sent [Api.authorized Scenario.profile_url Scenario.no_options
                         Scenario.expired_id_token]
          (Scenario.page_holding Scenario.expired_id_token)).
Proof.
  split; [vm_compute; reflexivity|].
  split; [reflexivity|].
  split; [vm_compute; reflexivity|].
  split; [vm_compute; reflexivity|].
  vm_compute; reflexivity.
Qed.

(** C2, counterexample.  The callback carries a state that is not the one
    [startLogin] stored, and the configuration endpoint does not answer:
    the exchange fails with the configuration error, not with the
    invalid-state one. *)
Lemma invalid_state_hidden_by_config_failure :
  Api.getItem Api.STATE_KEY Scenario.callback_page = Some Scenario.issued_state
  /\ Scenario.issued_state ≠ "forged-state"
  /\ fst (Api.exchangeCodeForTokens (B := Scenario.offline) "abc" "forged-state"
            Scenario.callback_page)
     = inl (Error "Failed to load Cognito configuration")
  /\ fst (Api.exchangeCodeForTokens (B := Scenario.offline) "abc" "forged-state"
            Scenario.callback_page)
     ≠ inl (Error "Invalid state or missing code verifier").
Proof.
  split; [vm_compute; reflexivity|].
  split; [discriminate|].
  split; [vm_compute; reflexivity|].
  intros E. vm_compute in E. discriminate E.
Qed.

(** C2, witness: the forged state on a callback page whose configuration
    loads. *)
Lemma exchange_rejects_invalid_state_witness :
  Api.getItem Api.STATE_KEY Scenario.callback_page ≠ Some "forged-state"
  /\ fst (Api.exchangeCodeForTokens (B := Scenario.accepting) "abc" "forged-state"
            Scenario.callback_page)
     = inl (Error "Invalid state or missing code verifier").
Proof.
  assert (Hbad : Api.getItem Api.STATE_KEY Scenario.callback_page ≠ Some "forged-state").
  { intros E. vm_compute in E. discriminate E. }
  split; [exact Hbad|].
  rewrite (exchange_rejects_invalid_state (B := Scenario.accepting) "abc" "forged-state"
             Scenario.callback_page (or_introl Hbad)).
  vm_compute; reflexivity.
Defined.

(** C3, counterexample.  No redirect URI is stored; state and verifier are
    those of [startLogin].  The exchange is not rejected: it returns the
    tokens of the provider. *)
Lemma exchange_without_stored_redirect_uri :
  Api.getItem Api.REDIRECT_URI_KEY Scenario.callback_page_without_redirect = None
  /\ fst (Api.exchangeCodeForTokens (B := Scenario.accepting) "abc" Scenario.issued_state
            Scenario.callback_page_without_redirect)
     = inr Scenario.token_response.
Proof.
  split; vm_compute; reflexivity.
Qed.

(** C3, witness: the same page, on which the check passes and the token
    request carries the callback URL of the current origin. *)
Lemma exchange_needs_state_and_verifier_witness :
  Api.getItem Api.STATE_KEY Scenario.callback_page_without_redirect
    = Some Scenario.issued_state
  /\ Api.sent (snd (Api.exchangeCodeForTokens (B := Scenario.accepting) "abc"
                      Scenario.issued_state Scenario.callback_page_without_redirect))
     = [ Http.GET "https://api.example.com/v1/config" ∅;
         Http.GET "https://api.example.com/v1/profile" ∅;
         Api.token_request Run.provider "client-1" "abc" "https://app.example.com/callback"
           (default EmptyString (Api.getItem Api.CODE_VERIFIER_KEY Scenario.callback_page)) ].
Proof.
  destruct (exchange_needs_state_and_verifier (B := Scenario.accepting) "abc"
              Scenario.issued_state Scenario.callback_page_without_redirect
              (snd (Api.loadCognitoConfig (B := Scenario.accepting)
                      Scenario.callback_page_without_redirect)))
    as [[Hr _]|(Hs & _ & _ & Hsent)].
  - vm_compute; reflexivity.
  - vm_compute; reflexivity.
  - exfalso. destruct Hr as [Hr|[Hr|Hr]].
    + apply Hr. vm_compute; reflexivity.
    + vm_compute in Hr. discriminate Hr.
    + vm_compute in Hr. discriminate Hr.
  - split; [exact Hs|]. rewrite Hsent. vm_compute; reflexivity.
Defined.

(** C4, counterexample.  The provider answers the token request with status
    400: the exchange fails and the three PKCE fields are still in session
    storage. *)
Lemma session_kept_after_failed_exchange :
  fst (Api.exchangeCodeForTokens (B := Scenario.rejecting) "abc" Scenario.issued_state
         Scenario.callback_page)
    = inl (Error ("Token exchange failed: "
                  ++ Run.print (VObj [("error", VStr "invalid_grant")])))
  /\ Api.getItem Api.STATE_KEY Scenario.after_rejection = Some Scenario.issued_state
  /\ Str.present (Api.getItem Api.CODE_VERIFIER_KEY Scenario.after_rejection) = true
  /\ Api.getItem Api.REDIRECT_URI_KEY Scenario.after_rejection
     = Some "https://app.example.com/callback".
Proof.
  repeat (split; [vm_compute; reflexivity|]). vm_compute; reflexivity.
Qed.

(** The callback page signs the user in: the identity is the one of the ID
    token, and the tokens are stored in place of the PKCE fields. *)
Example callback_signs_in :
  Callback.onCallback (B := Scenario.accepting) "abc" Scenario.issued_state
    {| Callback.app := AuthContext.mounted Scenario.callback_page;
       Callback.error := None; Callback.route := None; Callback.home_in_3s := false |}
  = {| Callback.app :=
         {| AuthContext.world :=
              Api.with_sent
                [ Http.GET "https://api.example.com/v1/config" ∅;
                  Http.GET "https://api.example.com/v1/profile" ∅;
                  Api.token_request Run.provider "client-1" "abc"
                    "https://app.example.com/callback"
                    (default EmptyString
                       (Api.getItem Api.CODE_VERIFIER_KEY Scenario.callback_page)) ]
                (Api.with_client_id (VStr "client-1")
                   (Api.with_domain (VStr Run.provider)
                      (Scenario.page_holding Scenario.id_token_groups_list)));
            AuthContext.user :=
              VObj [ ("sub", VStr "u-1"); ("email", VStr "ann@example.com");
                     ("name", VUndefined);
                     ("groups", VArr [VStr "administrators"]);
                     ("email_verified", VUndefined) ];
            AuthContext.loading := true |};
       Callback.error := None; Callback.route := Some "/profile";
       Callback.home_in_3s := false |}.
Proof. vm_compute; reflexivity. Qed.

(** The successful exchange on the same page, for comparison. *)
Example session_cleared_after_exchange :
  Api.sessionStorage
    (snd (Api.exchangeCodeForTokens (B := Scenario.accepting) "abc" Scenario.issued_state
            Scenario.callback_page))
  = ∅.
Proof. vm_compute; reflexivity. Qed.

(** ** Session bootstrap *)

Section bootstrap.
Context {L : Lang} {B : Browser}.

Import Api AuthContext.

(** [getCurrentUser] never throws and leaves session storage alone. *)
Lemma getCurrentUser_total (w : World) :
  exists userData, fst (getCurrentUser w) = inr userData.
Proof.
  run. repeat (case_match; simplify_eq/=); eauto.
Qed.

Lemma getCurrentUser_frame (w : World) :
  sessionStorage (snd (getCurrentUser w)) = sessionStorage w.
Proof.
  run. repeat (case_match; simplify_eq/=); reflexivity.
Qed.

(** [clearTokens] removes the two tokens and the three PKCE fields. *)
Lemma clearTokens_clears (w : World) (k : string) :
  k ∈ [TOKEN_STORAGE_KEY; ID_TOKEN_STORAGE_KEY; CODE_VERIFIER_KEY; STATE_KEY;
       REDIRECT_URI_KEY] ->
  getItem k (snd (clearTokens w)) = None.
Proof.
  intros Hk. unfold getItem. run. cbn.
  repeat (apply elem_of_cons in Hk as [->|Hk]; [simplify_map_eq; reflexivity|]).
  inversion Hk.
Qed.

(** Whatever a payload holds, the identity built from it is an object, hence
    truthy: the user counts as authenticated. *)
Lemma userFromToken_truthy (decoded : value) : JS.truthy (userFromToken decoded) = true.
Proof. reflexivity. Qed.

(** An ID token whose [exp] is a number other than zero and below [now] is
    purged with every other stored field, and the identity is not set. *)
Lemma bootstrap_purges_expired (now n : Z) (a : App) (token : string) (decoded : value) :
  getIdToken (world a) = Some token ->
  Str.nonempty token = true ->
  decode_exp token = Some (decoded, VNum n) ->
  n ≠ 0 -> n < now ->
  bootstrap now a
  = {| world := snd (clearTokens (world a)); user := user a; loading := false |}.
Proof.
  intros Hid Hne Hdec Hn0 Hlt. unfold bootstrap, onMount.
  rewrite Hid. cbn [Str.present from_option id]. rewrite Hne, orb_true_r, Hdec.
  unfold expired. cbn [JS.truthy to_number].
  replace (n =? 0) with false by (symmetry; apply Z.eqb_neq; exact Hn0).
  replace (n <? now) with true by (symmetry; apply Z.ltb_lt; exact Hlt).
  reflexivity.
Qed.

(** A stored ID token that decodes and is not found expired: the identity
    of its claims is shown at once, and the profile call is started. *)
Lemma onMount_shows_claims (now : Z) (a : App) (token : string) (decoded exp : value) :
  getIdToken (world a) = Some token ->
  Str.nonempty token = true ->
  decode_exp token = Some (decoded, exp) ->
  expired exp now = false ->
  onMount now a
  = ({| world := world a; user := userFromToken decoded; loading := loading a |},
     ProfileCall (userFromToken decoded)).
Proof.
  intros Hid Hne Hdec Hexp. unfold onMount.
  rewrite Hid. cbn [Str.present from_option id]. rewrite Hne, orb_true_r, Hdec, Hexp.
  reflexivity.
Qed.

(** The handlers of the profile call replace the identity by a truthy
    answer only; they never touch session storage. *)
Lemma onProfile_keeps (u : value) (a : App) :
  sessionStorage (world (onProfile u a)) = sessionStorage (world a)
  /\ loading (onProfile u a) = false
  /\ match fst (getCurrentUser (world a)) with
     | inr userData =>
         user (onProfile u a) = if JS.truthy userData then userData else user a
     | inl _ => user (onProfile u a) = user a
     end.
Proof.
  unfold onProfile. pose proof (getCurrentUser_frame (world a)) as Hs.
  destruct (getCurrentUser (world a)) as [[e|userData] w']; simpl in *; auto.
Qed.

(** With a valid ID token the bootstrap ends authenticated and with the
    tokens in place, whatever the profile call does; when that call fails
    or returns nothing, the identity is the one built from the token. *)
Lemma bootstrap_keeps_identity (now : Z) (a : App) (token : string) (decoded exp : value) :
  getIdToken (world a) = Some token ->
  Str.nonempty token = true ->
  decode_exp token = Some (decoded, exp) ->
  expired exp now = false ->
  sessionStorage (world (bootstrap now a)) = sessionStorage (world a)
  /\ JS.truthy (user (bootstrap now a)) = true
  /\ match fst (getCurrentUser (world a)) with
     | inr userData =>
         user (bootstrap now a)
         = if JS.truthy userData then userData else userFromToken decoded
     | inl _ => user (bootstrap now a) = userFromToken decoded
     end.
Proof.
  intros Hid Hne Hdec Hexp. unfold bootstrap.
  rewrite (onMount_shows_claims now a token decoded exp Hid Hne Hdec Hexp).
  set (a' := {| world := world a; user := userFromToken decoded; loading := loading a |}).
  destruct (onProfile_keeps (userFromToken decoded) a') as (Hs & _ & Hu).
  change (world a') with (world a) in *. change (user a') with (userFromToken decoded) in *.
  split; [exact Hs|].
  destruct (fst (getCurrentUser (world a))) as [e|userData].
  - rewrite Hu. split; reflexivity.
  - rewrite Hu. split; [|reflexivity].
    destruct (JS.truthy userData) eqn:Ht; [exact Ht|reflexivity].
Qed.

End bootstrap.

(** C8.  The stored ID token decodes with [exp] 0, which is below [now].
    The bootstrap does not purge it: the guard [exp && exp < now] reads the
    number 0 as a missing claim.  The tokens stay in session storage and
    the identity of the token is shown. *)
Lemma epoch_token_survives_bootstrap :
  snd <$> AuthContext.decode_exp (B := Scenario.accepting) Scenario.epoch_id_token
    = Some (VNum 0)
  /\ 0 < Scenario.now
  /\ Api.getIdToken
       (AuthContext.world
          (AuthContext.bootstrap (B := Scenario.accepting) Scenario.now
             (AuthContext.mounted (Scenario.page_holding Scenario.epoch_id_token))))
     = Some Scenario.epoch_id_token
  /\ AuthContext.user
       (AuthContext.bootstrap (B := Scenario.accepting) Scenario.now
          (AuthContext.mounted (Scenario.page_holding Scenario.epoch_id_token)))
     = VObj [ ("sub", VStr "u-1"); ("email", VStr "ann@example.com");
              ("name", VUndefined); ("groups", VArr []);
              ("email_verified", VUndefined) ].
Proof.
  split; [vm_compute; reflexivity|].
  split; [reflexivity|].
  split; vm_compute; reflexivity.
Qed.

(** The token that expired in 2020 is purged on the same page. *)
Example expired_token_purged :
  AuthContext.bootstrap (B := Scenario.accepting) Scenario.now
    (AuthContext.mounted (Scenario.page_holding Scenario.expired_id_token))
  = {| AuthContext.world := Api.load_page ∅ Scenario.here;
       AuthContext.user := VNull;
       AuthContext.loading := false |}.
Proof. vm_compute; reflexivity. Qed.

(** ** The groups claim *)

(** C5, as amended.  The server-side extraction normalizes a groups claim
    given as one string and given as the list of that string to the same
    set.  The client-side decoding, in [AuthContext] and in [Callback]
    alike, does not normalize: the derived identity holds the claim as it
    was supplied, or the empty list when the claim is missing or falsy. *)
Theorem groups_normalized_on_the_server_only :
  (forall s : string,
     Server.normalizeGroups (VStr s) = Some {[ s ]}
     /\ Server.normalizeGroups (VArr [VStr s]) = Some {[ s ]})
  /\ (forall sub email s : string,
        Server.identity (VObj [ ("sub", VStr sub); ("email", VStr email);
                                ("cognito:groups", VStr s) ])
        = Server.identity (VObj [ ("sub", VStr sub); ("email", VStr email);
                                  ("cognito:groups", VArr [VStr s]) ]))
  /\ (forall decoded : value,
        JS.get (AuthContext.userFromToken decoded) "groups"
        = Some (JS.or (JS.get_opt decoded "cognito:groups") (VArr [])))
  /\ (forall decoded : value,
        match Callback.user_of decoded with
        | Some user =>
            JS.get user "groups"
            = Some (JS.or (JS.get_opt decoded "cognito:groups") (VArr []))
        | None => JS.get decoded "sub" = None
        end).
Proof.
  assert (Hn : forall s : string,
             Server.normalizeGroups (VStr s) = Some {[ s ]}
             /\ Server.normalizeGroups (VArr [VStr s]) = Some {[ s ]}).
  { intros s. split; [reflexivity|]. cbn. f_equal. apply (right_id_L ∅ (∪)). }
  split; [exact Hn|]. split; [|split].
  - intros sub email s. destruct (Hn s) as [Hs Hl].
    unfold Server.identity. cbn [JS.get_opt JS.get JS.own String.eqb Ascii.eqb
      Bool.eqb from_option id]. rewrite Hs, Hl. reflexivity.
  - intros decoded. reflexivity.
  - intros decoded. unfold Callback.user_of.
    destruct (JS.get decoded "sub"); reflexivity.
Qed.

(** C5, counterexample.  Two ID tokens that differ only in the groups claim,
    the string administrators in one and the list holding it in the other:
    the identities derived from them on the client differ, the first holding
    a string where the second holds a list. *)
Lemma client_keeps_groups_as_supplied :
  (Callback.user_of_id_token (B := Scenario.accepting) (VStr Scenario.id_token_groups_string)
     ≫= fun user => JS.get user "groups")
    = Some (VStr "administrators")
  /\ (Callback.user_of_id_token (B := Scenario.accepting) (VStr Scenario.id_token_groups_list)
        ≫= fun user => JS.get user "groups")
     = Some (VArr [VStr "administrators"])
  /\ JS.get (AuthContext.user
               (fst (AuthContext.onMount (B := Scenario.accepting) Scenario.now
                       (AuthContext.mounted
                          (Scenario.page_holding Scenario.id_token_groups_string)))))
            "groups"
     = Some (VStr "administrators")
  /\ JS.get (AuthContext.user
               (fst (AuthContext.onMount (B := Scenario.accepting) Scenario.now
                       (AuthContext.mounted
                          (Scenario.page_holding Scenario.id_token_groups_list)))))
            "groups"
     = Some (VArr [VStr "administrators"])
  /\ VStr "administrators" ≠ VArr [VStr "administrators"].
Proof.
  repeat (split; [vm_compute; reflexivity|]). discriminate.
Qed.

(** The server gives both forms the same identity. *)
Example server_groups_agree :
  Express.auth (Scenario.forwarded (VStr "administrators")) = None
  /\ Server.attachAuth (Scenario.forwarded (VStr "administrators"))
     = Express.Next
         {| Express.headers := Express.headers (Scenario.forwarded (VStr "administrators"));
            Express.apiGateway := Express.apiGateway (Scenario.forwarded (VStr "administrators"));
            Express.auth := Some (Scenario.member_of ["administrators"]) |}
  /\ Server.identity (Server.forwarded_claims (Scenario.forwarded (VArr [VStr "administrators"])))
     = Some (Scenario.member_of ["administrators"]).
Proof. repeat split; vm_compute; reflexivity. Qed.

(** ** The authorization middleware *)

Section middleware.
Context {L : Lang} {N : Node}.

Import Express Server.

(** The response of [requireAuth] to a request without identity. *)
Definition unauthenticated : Response :=
  {| status := 401; sent_headers := cors_headers;
     json := VObj [("error", VStr "Authentication required")] |}.

(** The middleware of [app.ts] calls [next()] on every request: a header
    that does not parse, or parses to [null], is logged and skipped. *)
Lemma requestContext_never_throws (req : Request) :
  exists req', requestContext req = Next req' /\ auth req' = auth req.
Proof.
  unfold requestContext. repeat case_match; eauto.
Qed.

Lemma attachAuth_never_throws (req : Request) :
  exists req', attachAuth req = Next req'.
Proof.
  unfold attachAuth. case_match; eauto.
Qed.

(** A request that reaches the protected routes without well-formed
    forwarded claims is answered 401 by the authentication gate. *)
Lemma no_claims_no_entry (req : Request) (stack : list Middleware)
    (handler : Request -> Response) :
  identity (forwarded_claims req) = None ->
  auth req = None ->
  route (attachAuth :: requireAuth :: stack) handler req = inr unauthenticated.
Proof.
  intros Hid Ha. cbn [route]. unfold attachAuth. rewrite Hid.
  unfold requireAuth. rewrite Ha. reflexivity.
Qed.

(** C6.  A request-context header that is not JSON: the middleware of
    [app.ts] does not throw and leaves the request as it came, claim
    extraction attaches nothing, and the protected routes answer 401, as
    they do when the header is absent. *)
Theorem malformed_context_is_unauthenticated (h : gmap string string) (text : string) :
  h !! "x-amzn-request-context" = Some text ->
  JSON_parse text = None ->
  requestContext (incoming h) = Next (incoming h)
  /\ attachAuth (incoming h) = Next (incoming h)
  /\ profile (incoming h) = inr unauthenticated
  /\ profile (incoming (delete "x-amzn-request-context" h)) = inr unauthenticated
  /\ admin_ping (incoming h) = inr unauthenticated
  /\ status (getProfile (incoming h)) = 401.
Proof.
  intros Hh Hparse.
  assert (Hctx : requestContext (incoming h) = Next (incoming h)).
  { unfold requestContext. cbn [headers incoming]. rewrite Hh, Hparse.
    destruct (Str.nonempty text); reflexivity. }
  assert (Hnone : requestContext (incoming (delete "x-amzn-request-context" h))
                  = Next (incoming (delete "x-amzn-request-context" h))).
  { unfold requestContext. cbn [headers incoming]. now rewrite lookup_delete_eq. }
  split; [exact Hctx|]. split; [reflexivity|].
  unfold profile, admin_ping, admin_stack.
  cbn [route]. rewrite Hctx, Hnone.
  repeat split; try (apply no_claims_no_entry; reflexivity).
Qed.

(** C7.  For every request with an attached identity, [requireGroup] with
    the group administrators answers 403 when the identity's groups do not
    contain it and passes the request on when they do; so does the stack of
    the admin routes for every request whose forwarded claims give that
    identity. *)
Theorem requireGroup_administrators (req : Request) (u : AuthUser) :
  (auth req = Some u ->
   ("administrators" ∉ groups u ->
    exists res, requireGroup "administrators" req = Send res /\ status res = 403)
   /\ ("administrators" ∈ groups u -> requireGroup "administrators" req = Next req))
  /\ (identity (forwarded_claims req) = Some u ->
      ("administrators" ∉ groups u ->
       exists res, route admin_stack ping req = inr res /\ status res = 403)
      /\ ("administrators" ∈ groups u ->
          exists res, route admin_stack ping req = inr res /\ status res = 200)).
Proof.
  split.
  - intros Ha. unfold requireGroup. rewrite Ha. split; intros Hg.
    + rewrite bool_decide_eq_false_2 by exact Hg. eauto.
    + rewrite bool_decide_eq_true_2 by exact Hg. reflexivity.
  - intros Hid. unfold admin_stack. cbn [route].
    unfold attachAuth. rewrite Hid. unfold requireAuth. cbn [auth].
    unfold requireGroup. cbn [auth]. split; intros Hg.
    + rewrite bool_decide_eq_false_2 by exact Hg. eauto.
    + rewrite bool_decide_eq_true_2 by exact Hg. eauto.
Qed.

(** C10.  When the configuration loads, [getConfig] answers 200 with a
    [redirectUri] that is the origin of the Origin header followed by
    [/callback], of the Referer header when there is no Origin header, and
    the empty string when there is neither. *)
Theorem getConfig_redirectUri (req : Request) (c c' : Config.Cache) (jwt : Config.JwtConfig) :
  Config.loadConfig c = inr c' ->
  Config.getJwtConfig c' = inr jwt ->
  (forall o u : string,
     headers req !! "origin" = Some o -> Str.nonempty o = true -> URL_origin o = Some u ->
     status (fst (getConfig req c)) = 200
     /\ JS.get (json (fst (getConfig req c))) "redirectUri" = Some (VStr (u ++ "/callback")))
  /\ (forall r u : string,
        Str.present (headers req !! "origin") = false ->
        headers req !! "referer" = Some r -> Str.nonempty r = true -> URL_origin r = Some u ->
        status (fst (getConfig req c)) = 200
        /\ JS.get (json (fst (getConfig req c))) "redirectUri"
           = Some (VStr (u ++ "/callback")))
  /\ (headers req !! "origin" = None ->
      headers req !! "referer" = None ->
      status (fst (getConfig req c)) = 200
      /\ JS.get (json (fst (getConfig req c))) "redirectUri" = Some (VStr EmptyString)).
Proof.
  intros Hload Hjwt. unfold getConfig. rewrite Hload, Hjwt.
  split; [|split].
  - intros o u Ho Hne Hu. rewrite Ho. cbn [Str.item_or]. rewrite Hne, Hne, Hu.
    split; reflexivity.
  - intros r u Ho Hr Hne Hu. rewrite Hr. unfold Str.present in Ho.
    destruct (headers req !! "origin") as [o|]; cbn [Str.item_or].
    + rewrite Ho, Hne, Hne, Hu. split; reflexivity.
    + rewrite Hne, Hne, Hu. split; reflexivity.
  - intros Ho Hr. rewrite Ho, Hr. split; reflexivity.
Qed.

(** Without configuration the answer is 500, whatever the headers. *)
Lemma getConfig_without_config (req : Request) (c : Config.Cache) (e : exn) :
  Config.loadConfig c = inl e ->
  getConfig req c = (failed_to_load, c).
Proof.
  intros Hload. unfold getConfig. now rewrite Hload.
Qed.

(** A header that [new URL] does not accept fails the whole request. *)
Lemma getConfig_invalid_origin (req : Request) (c c' : Config.Cache)
    (jwt : Config.JwtConfig) (o : string) :
  Config.loadConfig c = inr c' ->
  Config.getJwtConfig c' = inr jwt ->
  headers req !! "origin" = Some o -> Str.nonempty o = true -> URL_origin o = None ->
  fst (getConfig req c) = failed_to_load.
Proof.
  intros Hload Hjwt Ho Hne Hu. unfold getConfig.
  rewrite Hload, Hjwt, Ho. cbn [Str.item_or]. rewrite Hne, Hne, Hu. reflexivity.
Qed.

End middleware.

(** *** The middleware on concrete requests *)

(** C6, witness: a header holding the text [{oops]. *)
Lemma malformed_context_is_unauthenticated_witness :
  JSON_parse (Lang := Run.lang) "{oops" = None
  /\ Server.requestContext (L := Run.lang) Scenario.malformed_request
     = Express.Next Scenario.malformed_request
  /\ Server.profile (N := Scenario.service) Scenario.malformed_request = inr unauthenticated
  /\ Server.admin_ping (N := Scenario.service) Scenario.malformed_request
     = inr unauthenticated.
Proof.
  split; [vm_compute; reflexivity|].
  destruct (malformed_context_is_unauthenticated (N := Scenario.service)
              {[ "x-amzn-request-context" := "{oops"; "authorization" := "Bearer x" ]}
              "{oops") as (Hctx & _ & Hprofile & _ & Hadmin & _).
  - vm_compute; reflexivity.
  - vm_compute; reflexivity.
  - split; [exact Hctx|]. split; [exact Hprofile|exact Hadmin].
Defined.

(** C7, witness: the groups [users] are refused, the groups [users] and
    [administrators] are let through. *)
Lemma requireGroup_administrators_witness :
  (exists res, Express.route Server.admin_stack (Server.ping (N := Scenario.service))
                 (Scenario.forwarded Scenario.users) = inr res
               /\ Express.status res = 403)
  /\ (exists res, Express.route Server.admin_stack (Server.ping (N := Scenario.service))
                    (Scenario.forwarded Scenario.users_and_administrators) = inr res
                  /\ Express.status res = 200)
  /\ (exists res, Server.requireGroup "administrators" (Scenario.attached Scenario.users)
                  = Express.Send res
                  /\ Express.status res = 403)
  /\ Server.requireGroup "administrators" (Scenario.attached Scenario.users_and_administrators)
     = Express.Next (Scenario.attached Scenario.users_and_administrators).
Proof.
  assert (Hout : "administrators" ∉ Express.groups (Scenario.member_of ["users"])).
  { unfold Scenario.member_of. cbn [Express.groups].
    rewrite elem_of_list_to_set. intros Hin.
    apply elem_of_cons in Hin as [Hin|Hin]; [discriminate Hin|inversion Hin]. }
  assert (Hin : "administrators"
                ∈ Express.groups (Scenario.member_of ["users"; "administrators"])).
  { unfold Scenario.member_of. cbn [Express.groups].
    rewrite elem_of_list_to_set. repeat constructor. }
  split; [|split; [|split]].
  - apply (requireGroup_administrators (N := Scenario.service)
             (Scenario.forwarded Scenario.users) (Scenario.member_of ["users"]));
      [vm_compute; reflexivity|exact Hout].
  - apply (requireGroup_administrators (N := Scenario.service)
             (Scenario.forwarded Scenario.users_and_administrators)
             (Scenario.member_of ["users"; "administrators"]));
      [vm_compute; reflexivity|exact Hin].
  - apply (requireGroup_administrators (N := Scenario.service)
             (Scenario.attached Scenario.users) (Scenario.member_of ["users"]));
      [vm_compute; reflexivity|exact Hout].
  - apply (requireGroup_administrators (N := Scenario.service)
             (Scenario.attached Scenario.users_and_administrators)
             (Scenario.member_of ["users"; "administrators"]));
      [vm_compute; reflexivity|exact Hin].
Defined.

(** C10, witness: a request with an Origin header, one with a Referer
    header only, one with neither. *)
Lemma getConfig_redirectUri_witness :
  JS.get (Express.json (fst (Server.getConfig (N := Scenario.service)
                               Scenario.from_origin Config.cold))) "redirectUri"
    = Some (VStr "https://app.example.com/callback")
  /\ JS.get (Express.json (fst (Server.getConfig (N := Scenario.service)
                                  Scenario.from_referer Config.cold))) "redirectUri"
     = Some (VStr "https://app.example.com/callback")
  /\ Express.status (fst (Server.getConfig (N := Scenario.service)
                            (Express.incoming ∅) Config.cold)) = 200
  /\ JS.get (Express.json (fst (Server.getConfig (N := Scenario.service)
                                  (Express.incoming ∅) Config.cold))) "redirectUri"
     = Some (VStr EmptyString).
Proof.
  assert (Hload : Config.loadConfig (N := Scenario.service) Config.cold = inr Scenario.loaded)
    by (vm_compute; reflexivity).
  assert (Hjwt : Config.getJwtConfig Scenario.loaded = inr Scenario.jwt_config)
    by (vm_compute; reflexivity).
  split; [|split].
  - destruct (getConfig_redirectUri (N := Scenario.service) Scenario.from_origin
                Config.cold Scenario.loaded Scenario.jwt_config Hload Hjwt) as (Ho & _ & _).
    apply (Ho "https://app.example.com" "https://app.example.com");
      vm_compute; reflexivity.
  - destruct (getConfig_redirectUri (N := Scenario.service) Scenario.from_referer
                Config.cold Scenario.loaded Scenario.jwt_config Hload Hjwt) as (_ & Hr & _).
    apply (Hr "https://app.example.com/login?next=home" "https://app.example.com");
      vm_compute; reflexivity.
  - destruct (getConfig_redirectUri (N := Scenario.service) (Express.incoming ∅)
                Config.cold Scenario.loaded Scenario.jwt_config Hload Hjwt) as (_ & _ & Hn).
    apply Hn; vm_compute; reflexivity.
Defined.

(** * Further properties *)

(** ** [api.ts]: configuration, login, logout *)

Section more_client.
Context {L : Lang} {B : Browser}.

Import Api Api.Notations.

(** The two requests of [loadCognitoConfig]. *)
Definition config_request : Http.Request := Http.GET (API_BASE_URL ++ "/v1/config") ∅.
Definition probe_request : Http.Request := Http.GET (API_BASE_URL ++ "/v1/profile") ∅.

(** [loadCognitoConfig] is memoized and never sends a credential: with the
    configuration cached it does nothing; otherwise it sends the
    configuration request and at most the debugging profile request after
    it, both without any header.  It touches neither session storage nor
    the location. *)
Theorem loadCognitoConfig_requests (w : World) :
  (if configured w
   then loadCognitoConfig w = (inr tt, w)
   else sent (snd (loadCognitoConfig w)) = (sent w ++ [config_request])%list
        \/ sent (snd (loadCognitoConfig w))
           = (sent w ++ [config_request; probe_request])%list)
  /\ sessionStorage (snd (loadCognitoConfig w)) = sessionStorage w
  /\ href (snd (loadCognitoConfig w)) = href w
  /\ Http.headers config_request = ∅ /\ Http.headers probe_request = ∅.
Proof.
  unfold config_request, probe_request. run.
  destruct (configured w) eqn:Hc.
  - repeat split; reflexivity.
  - split; [|repeat split].
    + repeat (case_match; simplify_eq/=); rewrite <- ?app_assoc; auto.
    + repeat (case_match; simplify_eq/=); reflexivity.
    + repeat (case_match; simplify_eq/=); reflexivity.
Qed.

(** The configuration is cached before the debugging profile request is
    made: when that request fails, [loadCognitoConfig] fails although the
    configuration it fetched is in place, and the next call succeeds without
    sending anything. *)
Theorem probe_failure_leaves_config_cached
    (w : World) (response : Http.Response) (config domain clientId : value) :
  configured w = false ->
  network (length (sent w)) config_request = Some response ->
  Http.ok response = true ->
  JSON_parse (Http.text response) = Some config ->
  JS.get config "cognitoDomain" = Some domain -> JS.truthy domain = true ->
  JS.get config "cognitoClientId" = Some clientId -> JS.truthy clientId = true ->
  network (S (length (sent w))) probe_request = None ->
  exists w1,
    loadCognitoConfig w = (inl (Error "Failed to load Cognito configuration"), w1)
    /\ COGNITO_DOMAIN w1 = domain /\ COGNITO_CLIENT_ID w1 = clientId
    /\ loadCognitoConfig w1 = (inr tt, w1).
Proof.
  unfold config_request, probe_request.
  intros Hc Hnet Hok Hparse Hd Htd Hi Hti Hprobe.
  unfold loadCognitoConfig at 1. run. rewrite Hc, Hnet. cbn. rewrite Hok. cbn.
  rewrite Hparse. cbn. rewrite Hd. cbn. rewrite Hi. cbn.
  rewrite length_app. cbn [length]. rewrite Nat.add_1_r, Hprobe.
  eexists. split; [reflexivity|]. cbn. split; [reflexivity|]. split; [reflexivity|].
  unfold configured. cbn. now rewrite Htd, Hti.
Qed.

End more_client.

(** The configuration request is answered and the debugging request is not:
    the first call fails, the second succeeds from the cache. *)
Lemma probe_failure_leaves_config_cached_witness :
  exists w1,
    Api.loadCognitoConfig (B := Scenario.config_only) (Api.load_page ∅ Scenario.here)
    = (inl (Error "Failed to load Cognito configuration"), w1)
    /\ Api.COGNITO_DOMAIN w1 = VStr Run.provider
    /\ Api.COGNITO_CLIENT_ID w1 = VStr "client-1"
    /\ Api.loadCognitoConfig (B := Scenario.config_only) w1 = (inr tt, w1).
Proof.
  apply (probe_failure_leaves_config_cached (B := Scenario.config_only)
           (Api.load_page ∅ Scenario.here)
           (Run.respond 200 (Run.print Run.config_body)) Run.config_body);
    vm_compute; reflexivity.
Defined.

(** ** [utils/pkce.ts] and the state nonce: the shape of what is generated *)

(** The characters of base64url: letters, digits, [-] and [_]. *)
Definition url_safe_char (c : ascii) : bool :=
  let n := Str.code c in
  ((65 <=? n) && (n <=? 90)) || ((97 <=? n) && (n <=? 122))
  || ((48 <=? n) && (n <=? 57)) || (n =? 45) || (n =? 95).

(** The characters of lower-case hexadecimal. *)
Definition hex_char (c : ascii) : bool :=
  let n := Str.code c in
  ((48 <=? n) && (n <=? 57)) || ((97 <=? n) && (n <=? 102)).

Section shapes.

Lemma chars_app (a b : string) : Str.chars (a ++ b) = (Str.chars a ++ Str.chars b)%list.
Proof.
  induction a as [|c a IH]; [reflexivity|].
  change (c :: Str.chars (a ++ b) = c :: (Str.chars a ++ Str.chars b)%list).
  now rewrite IH.
Qed.

Lemma chars_of_chars (l : list ascii) : Str.chars (Str.of_chars l) = l.
Proof. apply list_ascii_of_string_of_list_ascii. Qed.

Lemma url_alphabet_safe (i : Z) : 0 <= i < 64 -> url_safe_char (Base64.url i) = true.
Proof.
  revert i. apply (below_64 (fun i => url_safe_char (Base64.url i))).
  vm_compute. reflexivity.
Qed.

(** The unpadded encoding of [n] bytes has [ceil (4 n / 3)] characters, all
    of the URL-safe alphabet. *)
Definition encoded (bytes : list Z) : Prop :=
  length (Str.chars (Base64.encode Base64.url false bytes))
  = ((4 * length bytes + 2) / 3)%nat
  /\ forallb url_safe_char (Str.chars (Base64.encode Base64.url false bytes)) = true.

Lemma encode_url_shape (bytes : list Z) :
  encoded bytes /\ (forall a, encoded (a :: bytes)) /\ (forall a b, encoded (a :: b :: bytes)).
Proof.
  unfold encoded.
  induction bytes as [|c rest (IH0 & IH1 & IH2)].
  - split; [|split]; intros; cbn [Base64.encode Str.chars list_ascii_of_string forallb length];
      rewrite ?url_alphabet_safe by apply sextet_range; split; reflexivity.
  - split; [exact (IH1 c)|]. split; [exact (fun a => IH2 a c)|].
    intros a b. destruct IH0 as [Hlen Hall].
    cbn [Base64.encode Str.chars list_ascii_of_string forallb length].
    fold (Str.chars (Base64.encode Base64.url false rest)).
    rewrite !url_alphabet_safe by apply sextet_range. rewrite Hall, Hlen.
    split; [|reflexivity].
    replace (4 * S (S (S (length rest))) + 2)%nat
      with ((4 * length rest + 2) + 4 * 3)%nat by lia.
    rewrite Nat.div_add by lia. lia.
Qed.

Lemma be_bytes_length (k : nat) (n : Z) : length (SHA256.be_bytes k n) = k.
Proof. induction k as [|k IH]; [reflexivity|]. cbn [SHA256.be_bytes length]. now rewrite IH. Qed.

Lemma blocks_length (n : nat) (h ws : list Z) :
  length h = 8%nat -> length (SHA256.blocks n h ws) = 8%nat.
Proof.
  revert h ws. induction n as [|n IH]; intros h ws Hh; [exact Hh|].
  cbn [SHA256.blocks]. apply IH. unfold SHA256.compress.
  rewrite length_map, length_combine, Hh. reflexivity.
Qed.

(** A SHA-256 digest has 32 bytes. *)
Lemma digest_length (msg : list Z) : length (SHA256.digest msg) = 32%nat.
Proof.
  unfold SHA256.digest.
  generalize (blocks_length (length (SHA256.words (SHA256.pad msg)) / 16) SHA256.H0
                (SHA256.words (SHA256.pad msg)) eq_refl).
  generalize (SHA256.blocks (length (SHA256.words (SHA256.pad msg)) / 16) SHA256.H0
                (SHA256.words (SHA256.pad msg))).
  intros l Hl.
  assert (Hflat : forall l : list Z,
             length (flat_map (SHA256.be_bytes 4) l) = (4 * length l)%nat).
  { clear. induction l as [|x l IH]; [reflexivity|].
    cbn [flat_map]. rewrite length_app, be_bytes_length, IH. cbn [length]. lia. }
  rewrite Hflat, Hl. reflexivity.
Qed.

End shapes.

(** Whatever the verifier, the code challenge has 43 characters, all
    letters, digits, [-] or [_]: no [+], [/] or padding is left, and the
    length is within the 43 to 128 characters that PKCE asks for. *)
Theorem generateCodeChallenge_shape (codeVerifier : string) :
  length (Str.chars (Pkce.generateCodeChallenge codeVerifier)) = 43%nat
  /\ forallb url_safe_char (Str.chars (Pkce.generateCodeChallenge codeVerifier)) = true.
Proof.
  destruct (url_safe_encode (SHA256.digest (Pkce.bytes_of codeVerifier))) as [E _].
  unfold url_safe in E.
  unfold Pkce.generateCodeChallenge, Pkce.sha256_base64. rewrite E.
  destruct (encode_url_shape (SHA256.digest (Pkce.bytes_of codeVerifier))) as [[Hlen Hall] _].
  rewrite Hlen, Hall, digest_length. split; reflexivity.
Qed.

(** [generateRandomString(length)] returns exactly [length] characters, all
    URL-safe, from the [ceil (3 length / 4)] random bytes it draws. *)
Theorem generateRandomString_shape (random : list Z) (n : nat) :
  length random = ((3 * n + 3) / 4)%nat ->
  length (Str.chars (Pkce.generateRandomString random n)) = n
  /\ forallb url_safe_char (Str.chars (Pkce.generateRandomString random n)) = true.
Proof.
  intros Hrandom.
  destruct (url_safe_encode random) as [E _]. unfold url_safe in E.
  destruct (encode_url_shape random) as [[Hlen Hall] _].
  unfold Pkce.generateRandomString. rewrite E, chars_of_chars. split.
  - rewrite length_firstn, Hlen, Hrandom. apply Nat.min_l.
    pose proof (Nat.div_mod_eq (3 * n + 3) 4) as H4.
    pose proof (Nat.mod_upper_bound (3 * n + 3) 4 ltac:(lia)) as H4'.
    apply Nat.div_le_lower_bound; lia.
  - apply forallb_forall. intros c Hc. rewrite forallb_forall in Hall.
    apply Hall. rewrite <- (firstn_skipn n (Str.chars (Base64.encode Base64.url false random))).
    apply in_or_app. left. exact Hc.
Qed.

(** A 128-character string from 96 random bytes. *)
Lemma generateRandomString_shape_witness :
  length (Str.chars (Pkce.generateRandomString (Run.counting 0 96) 128)) = 128%nat
  /\ forallb url_safe_char
       (Str.chars (Pkce.generateRandomString (Run.counting 0 96) 128)) = true.
Proof.
  apply generateRandomString_shape. vm_compute; reflexivity.
Defined.

(** ** [api.ts]: [startLogin], the callback after it, [doLogout] *)

(** [searchParams.get(name)] on the parameters of a navigation. *)
Definition query_get (name : string) (query : list (string * string)) : option string :=
  snd <$> find (fun kv => String.eqb (fst kv) name) query.

Section login.
Context {L : Lang} {B : Browser}.

Import Api Api.Notations.

Lemma below_16 (P : Z -> bool) :
  forallb P (map Z.of_nat (seq 0 16)) = true ->
  forall i, 0 <= i < 16 -> P i = true.
Proof.
  intros HP i Hi. rewrite forallb_forall in HP. apply HP.
  apply in_map_iff. exists (Z.to_nat i). split; [lia|].
  apply in_seq. lia.
Qed.

Lemma hex_digit_hex (i : Z) : 0 <= i < 16 -> hex_char (hex_digit i) = true.
Proof.
  revert i. apply (below_16 (fun i => hex_char (hex_digit i))). vm_compute. reflexivity.
Qed.

Lemma hex_encoding (bytes : list Z) :
  Forall (fun b => 0 <= b < 256) bytes ->
  length (Str.chars (String.concat EmptyString (map hex2 bytes))) = (2 * length bytes)%nat
  /\ forallb hex_char (Str.chars (String.concat EmptyString (map hex2 bytes))) = true.
Proof.
  induction 1 as [|b bytes Hb _ [IHlen IHall]]; [split; reflexivity|].
  assert (Hcons : String.concat EmptyString (map hex2 (b :: bytes))
                  = String (hex_digit (b / 16)) (String (hex_digit (b mod 16))
                      (String.concat EmptyString (map hex2 bytes)))).
  { destruct bytes; reflexivity. }
  rewrite Hcons. cbn [Str.chars list_ascii_of_string length forallb].
  fold (Str.chars (String.concat EmptyString (map hex2 bytes))).
  rewrite IHlen, IHall.
  rewrite !hex_digit_hex.
  - split; [lia|reflexivity].
  - apply Z.mod_pos_bound. lia.
  - split; [apply Z.div_pos; lia|apply Z.div_lt_upper_bound; lia].
Qed.

(** The state nonce is made of 32 lower-case hexadecimal characters, two
    for each of the 16 random bytes, and every call takes a new draw. *)
Theorem generateState_is_hex (w : World) :
  length (getRandomValues (draws w) 16) = 16%nat ->
  Forall (fun b => 0 <= b < 256) (getRandomValues (draws w) 16) ->
  exists state,
    generateState w = (inr state, with_draws (S (draws w)) w)
    /\ length (Str.chars state) = 32%nat
    /\ forallb hex_char (Str.chars state) = true.
Proof.
  intros Hlen Hbytes. destruct (hex_encoding _ Hbytes) as [Hl Hall].
  eexists. split; [reflexivity|]. rewrite Hl, Hlen, Hall. split; reflexivity.
Qed.

(** What [startLogin] generates on a page whose configuration is [w1]. *)
Definition new_state (w1 : World) : string :=
  String.concat EmptyString (map hex2 (getRandomValues (draws w1) 16)).
Definition new_verifier (w1 : World) : string := generateCodeVerifier (S (draws w1)).
Definition authorize_url (w1 : World) : string :=
  JS.to_string (COGNITO_DOMAIN w1) ++ "/oauth2/authorize".

(** The page that [startLogin] leaves. *)
Lemma startLogin_success (w w1 : World) :
  loadCognitoConfig w = (inr tt, w1) ->
  configured w1 = true ->
  URL_valid (authorize_url w1) = true ->
  startLogin w
  = (inr tt,
     with_href
       {| target := authorize_url w1;
          query := [ ("client_id", JS.to_string (COGNITO_CLIENT_ID w1));
                     ("response_type", "code");
                     ("scope", "openid email");
                     ("redirect_uri", getRedirectUri w);
                     ("state", new_state w1);
                     ("code_challenge", generateCodeChallenge (new_verifier w1));
                     ("code_challenge_method", "S256") ] |}
       (with_storage
          (<[ REDIRECT_URI_KEY := getRedirectUri w ]>
             (<[ STATE_KEY := new_state w1 ]>
                (<[ CODE_VERIFIER_KEY := new_verifier w1 ]> (sessionStorage w))))
          (with_draws (S (S (draws w1))) w1))).
Proof.
  unfold authorize_url, new_state, new_verifier.
  intros Hload Hcfg Hurl.
  destruct (loadCognitoConfig_frame w) as [Hs Ho]. rewrite Hload in Hs, Ho. simpl in Hs, Ho.
  unfold configured in Hcfg. apply andb_true_iff in Hcfg as [Hd Hc].
  unfold startLogin, bind at 1. rewrite Hload. clear Hload.
  unfold getRedirectUri. run. rewrite Hd, Hc. cbn. rewrite Hurl. cbn.
  rewrite Hs, Ho. reflexivity.
Qed.



End login.

Section logout_properties.
Context {L : Lang} {B : Browser}.
Variable encodeURIComponent : string -> string.

Import Api Api.Notations.

Lemma loadCognitoConfig_href (w : World) : href (snd (loadCognitoConfig w)) = href w.
Proof.
  run. repeat (case_match; simplify_eq/=); reflexivity.
Qed.

(** [doLogout] loads the configuration before it clears anything: when the
    configuration cannot be loaded the logout fails and the tokens stay in
    session storage; otherwise the two tokens and the three PKCE fields are
    removed and the page goes to the provider's logout URL. *)
Theorem doLogout_needs_configuration (w : World) :
  match loadCognitoConfig w with
  | (inl e, w1) =>
      doLogout encodeURIComponent w = (inl e, w1)
      /\ sessionStorage w1 = sessionStorage w
      /\ href w1 = href w
  | (inr _, w1) =>
      exists w',
        doLogout encodeURIComponent w = (inr tt, w')
        /\ getAccessToken w' = None /\ getIdToken w' = None
        /\ getItem CODE_VERIFIER_KEY w' = None /\ getItem STATE_KEY w' = None
        /\ getItem REDIRECT_URI_KEY w' = None
        /\ href w' = Some {| target := logoutUrl encodeURIComponent w1; query := [] |}
  end.
Proof.
  destruct (loadCognitoConfig_frame w) as [Hs _].
  pose proof (loadCognitoConfig_href w) as Hh.
  destruct (loadCognitoConfig w) as [[e|[]] w1] eqn:Hload; cbn [snd] in Hs, Hh.
  - unfold doLogout, bind at 1. rewrite Hload. auto.
  - eexists. split; [unfold doLogout, bind at 1; rewrite Hload; reflexivity|].
    unfold getAccessToken, getIdToken, getItem, logoutUrl. cbn.
    repeat (split; [simplify_map_eq; reflexivity|]). reflexivity.
Qed.

End logout_properties.

(** The first draw of the example browser gives the state of the scenario. *)
Lemma generateState_is_hex_witness :
  exists state,
    Api.generateState (B := Scenario.accepting) (Api.load_page ∅ Scenario.here)
    = (inr state, Api.with_draws 1 (Api.load_page ∅ Scenario.here))
    /\ length (Str.chars state) = 32%nat
    /\ forallb hex_char (Str.chars state) = true.
Proof.
  apply (generateState_is_hex (B := Scenario.accepting) (Api.load_page ∅ Scenario.here)).
  - vm_compute; reflexivity.
  - apply Forall_forall. intros b Hb.
    assert (Hall : forallb (fun b => (0 <=? b) && (b <? 256)) (Run.counting 0 16) = true)
      by (vm_compute; reflexivity).
    rewrite forallb_forall in Hall. apply list_elem_of_In in Hb.
    specialize (Hall b Hb). lia.
Defined.



(** ** [api.ts]: the profile call and the token accessors *)

Section tokens.
Context {L : Lang} {B : Browser}.

Import Api Api.Notations.

(** [getCurrentUser] never rejects, whatever the network answers, and it
    changes nothing but the list of requests sent: a failed call, a 401
    included, leaves both tokens in session storage. *)
Theorem getCurrentUser_never_fails (w : World) :
  (exists user, fst (getCurrentUser w) = inr user)
  /\ sessionStorage (snd (getCurrentUser w)) = sessionStorage w
  /\ COGNITO_DOMAIN (snd (getCurrentUser w)) = COGNITO_DOMAIN w
  /\ COGNITO_CLIENT_ID (snd (getCurrentUser w)) = COGNITO_CLIENT_ID w
  /\ href (snd (getCurrentUser w)) = href w.
Proof.
  run. split; [|split; [|split; [|split]]];
    repeat (case_match; simplify_eq/=); eauto.
Qed.

(** [getCurrentUser] returns a user only from an answer of the profile
    endpoint with a success status and a JSON body whose [authenticated]
    field is truthy: the user is then the [user] field of that body. *)
Theorem getCurrentUser_user_comes_from_profile (w : World) (user : value) :
  fst (getCurrentUser w) = inr user ->
  JS.truthy user = true ->
  exists token res data authenticated,
    bearer w = Some token
    /\ network (length (sent w)) (profile_request token) = Some res
    /\ Http.ok res = true
    /\ JSON_parse (Http.text res) = Some data
    /\ JS.get data "authenticated" = Some authenticated
    /\ JS.truthy authenticated = true
    /\ JS.get data "user" = Some user.
Proof.
  run. intros Hres Ht.
  destruct (bearer w) as [token|]; [|simplify_eq/=].
  destruct (network _ _) as [res|] eqn:Hnet; [|simplify_eq/=].
  destruct (Http.ok res) eqn:Hok; [|simplify_eq/=].
  cbn in Hres. destruct (JSON_parse _) as [data|] eqn:Hparse; [|simplify_eq/=].
  cbn in Hres. destruct (JS.get data "authenticated") as [a|] eqn:Ha; [|simplify_eq/=].
  cbn in Hres. destruct (JS.truthy a) eqn:Hta; [|simplify_eq/=].
  destruct (JS.get data "user") as [u|] eqn:Hu; simplify_eq/=.
  eexists token, res, data, a. repeat split; auto.
Qed.

(** The five keys of session storage are kept apart.  A stored token is read
    back; storing one token leaves the other token and every other key as
    they were; [clearTokens] removes the two tokens and the three PKCE
    fields and nothing else, after which no bearer token is left. *)
Theorem token_accessors (w : World) (token key : string) :
  getIdToken (snd (storeIdToken token w)) = Some token
  /\ getAccessToken (snd (storeAccessToken token w)) = Some token
  /\ getItem key (snd (storeIdToken token w))
     = (if bool_decide (key = ID_TOKEN_STORAGE_KEY) then Some token else getItem key w)
  /\ getItem key (snd (storeAccessToken token w))
     = (if bool_decide (key = TOKEN_STORAGE_KEY) then Some token else getItem key w)
  /\ getAccessToken (snd (storeIdToken token w)) = getAccessToken w
  /\ getIdToken (snd (storeAccessToken token w)) = getIdToken w
  /\ getItem key (snd (clearTokens w))
     = (if bool_decide (key ∈ [TOKEN_STORAGE_KEY; ID_TOKEN_STORAGE_KEY; CODE_VERIFIER_KEY;
                               STATE_KEY; REDIRECT_URI_KEY])
        then None else getItem key w)
  /\ bearer (snd (clearTokens w)) = None.
Proof.
  unfold getIdToken, getAccessToken, bearer, storeIdToken, storeAccessToken, getItem.
  run. cbn.
  split; [apply lookup_insert_eq|]. split; [apply lookup_insert_eq|].
  split; [rewrite lookup_insert; repeat case_decide; simplify_eq; reflexivity|].
  split; [rewrite lookup_insert; repeat case_decide; simplify_eq; reflexivity|].
  split; [apply lookup_insert_ne; discriminate|].
  split; [apply lookup_insert_ne; discriminate|].
  split.
  - case_bool_decide as Hk.
    + repeat (apply elem_of_cons in Hk as [->|Hk]; [simplify_map_eq; reflexivity|]).
      inversion Hk.
    + rewrite !lookup_delete_ne; [reflexivity|..]; intros <-; apply Hk;
        repeat constructor.
  - unfold Str.or_item, Str.present, getItem. cbn. simplify_map_eq. reflexivity.
Qed.

End tokens.

(** The gateway accepts the token: the user of the profile body is returned. *)
Lemma getCurrentUser_user_comes_from_profile_witness :
  fst (Api.getCurrentUser (B := Scenario.welcoming)
         (Scenario.page_holding Scenario.id_token_groups_list))
    = inr (VObj [ ("sub", VStr "u-1"); ("email", VStr "ann@example.com");
                  ("groups", VArr [VStr "administrators"]) ])
  /\ exists token res data authenticated,
       Api.bearer (Scenario.page_holding Scenario.id_token_groups_list) = Some token
       /\ network (Browser := Scenario.welcoming) 0
            (Api.profile_request (B := Scenario.welcoming) token) = Some res
       /\ Http.ok res = true
       /\ JSON_parse (Lang := Run.lang) (Http.text res) = Some data
       /\ JS.get data "authenticated" = Some authenticated
       /\ JS.truthy authenticated = true
       /\ JS.get data "user"
          = Some (VObj [ ("sub", VStr "u-1"); ("email", VStr "ann@example.com");
                         ("groups", VArr [VStr "administrators"]) ]).
Proof.
  assert (Hres : fst (Api.getCurrentUser (B := Scenario.welcoming)
                        (Scenario.page_holding Scenario.id_token_groups_list))
                 = inr (VObj [ ("sub", VStr "u-1"); ("email", VStr "ann@example.com");
                               ("groups", VArr [VStr "administrators"]) ]))
    by (vm_compute; reflexivity).
  split; [exact Hres|].
  exact (getCurrentUser_user_comes_from_profile (B := Scenario.welcoming) _ _ Hres eq_refl).
Defined.

(** ** [AuthContext.tsx]: every path of the mount effect *)

Section mount.
Context {L : Lang} {B : Browser}.

Import Api Api.Notations AuthContext.

Lemma getCurrentUser_sent (w : World) :
  sent (snd (getCurrentUser w))
  = match bearer w with
    | Some token => (sent w ++ [profile_request token])%list
    | None => sent w
    end.
Proof.
  run. repeat (case_match; simplify_eq/=); reflexivity.
Qed.

Lemma onProfile_sent (u : value) (a : App) :
  sent (world (onProfile u a)) = sent (snd (getCurrentUser (world a))).
Proof.
  unfold onProfile. destruct (getCurrentUser (world a)) as [r w']. reflexivity.
Qed.

Lemma onProfile_user (u : value) (a : App) :
  user (onProfile u a)
  = match fst (getCurrentUser (world a)) with
    | inr userData => if JS.truthy userData then userData else user a
    | inl _ => user a
    end.
Proof.
  unfold onProfile. destruct (getCurrentUser (world a)) as [[e|userData] w']; reflexivity.
Qed.

(** Whatever session storage holds and whatever the network does, the mount
    effect ends with [loading] false, and in one of two ways: either it
    purged the tokens and the PKCE fields, sent nothing and left the
    identity as it was; or it left session storage as it was and sent at
    most one request, the profile request carrying the stored token. *)
Theorem bootstrap_outcomes (now : Z) (a : App) :
  loading (bootstrap now a) = false
  /\ (bootstrap now a
      = {| world := snd (clearTokens (world a)); user := user a; loading := false |}
      \/ (sessionStorage (world (bootstrap now a)) = sessionStorage (world a)
          /\ (sent (world (bootstrap now a)) = sent (world a)
              \/ exists token,
                   bearer (world a) = Some token
                   /\ sent (world (bootstrap now a))
                      = (sent (world a) ++ [profile_request token])%list))).
Proof.
  assert (Hp : forall u a',
             world a' = world a ->
             loading (onProfile u a') = false
             /\ (onProfile u a'
                 = {| world := snd (clearTokens (world a)); user := user a; loading := false |}
                 \/ (sessionStorage (world (onProfile u a')) = sessionStorage (world a)
                     /\ (sent (world (onProfile u a')) = sent (world a)
                         \/ exists token,
                              bearer (world a) = Some token
                              /\ sent (world (onProfile u a'))
                                 = (sent (world a) ++ [profile_request token])%list)))).
  { intros u a' Hw. destruct (onProfile_keeps u a') as (Hs & Hl & _).
    split; [exact Hl|]. right. rewrite Hs, Hw. split; [reflexivity|].
    rewrite onProfile_sent, getCurrentUser_sent, Hw.
    destruct (bearer (world a)) as [token|]; [right; eauto|left; reflexivity]. }
  unfold bootstrap, onMount, purge.
  destruct (Str.present (getAccessToken (world a)) || Str.present (getIdToken (world a))).
  - destruct (Str.present (getIdToken (world a))).
    + destruct (decode_exp _) as [[decoded exp]|]; [|split; [reflexivity|left; reflexivity]].
      destruct (expired exp now); [split; [reflexivity|left; reflexivity]|].
      apply Hp. reflexivity.
    + destruct (decode_exp _) as [[decoded exp]|]; [|split; [reflexivity|left; reflexivity]].
      destruct (expired exp now); [split; [reflexivity|left; reflexivity]|].
      apply Hp. reflexivity.
  - split; [reflexivity|]. right. split; [reflexivity|]. left. reflexivity.
Qed.

(** A stored ID token that cannot be decoded (or whose payload is [null])
    takes everything with it: the access token stored beside it is removed
    without being looked at, nothing is sent, and no identity is set. *)
Theorem undecodable_id_token_purges_all (now : Z) (a : App) (token : string) :
  getIdToken (world a) = Some token ->
  Str.nonempty token = true ->
  decode_exp token = None ->
  bootstrap now a
  = {| world := snd (clearTokens (world a)); user := user a; loading := false |}
  /\ getAccessToken (world (bootstrap now a)) = None
  /\ getIdToken (world (bootstrap now a)) = None
  /\ sent (world (bootstrap now a)) = sent (world a).
Proof.
  intros Hid Hne Hdec.
  assert (E : bootstrap now a
              = {| world := snd (clearTokens (world a)); user := user a; loading := false |}).
  { unfold bootstrap, onMount. rewrite Hid. cbn [Str.present from_option id].
    rewrite Hne, orb_true_r, Hdec. reflexivity. }
  rewrite E. split; [reflexivity|]. cbn [world].
  split; [apply clearTokens_clears; repeat constructor|].
  split; [apply clearTokens_clears; repeat constructor|].
  run. reflexivity.
Qed.

(** With an access token only (no ID token, or an empty one), no identity
    is read from the token: the mount effect sends the profile request with
    the access token and the identity is what that call returns; when the
    call returns nothing the user stays as it was (signed out), although the
    token stays in session storage. *)
Theorem access_token_alone_gives_no_identity (now : Z) (a : App) (token : string)
    (decoded exp : value) :
  Str.present (getIdToken (world a)) = false ->
  getAccessToken (world a) = Some token ->
  Str.nonempty token = true ->
  decode_exp token = Some (decoded, exp) ->
  expired exp now = false ->
  sessionStorage (world (bootstrap now a)) = sessionStorage (world a)
  /\ sent (world (bootstrap now a)) = (sent (world a) ++ [profile_request token])%list
  /\ user (bootstrap now a)
     = match fst (getCurrentUser (world a)) with
       | inr userData => if JS.truthy userData then userData else user a
       | inl _ => user a
       end.
Proof.
  intros Hid Hacc Hne Hdec Hexp.
  assert (E : bootstrap now a = onProfile VNull a).
  { unfold bootstrap, onMount. rewrite Hid, Hacc. cbn [Str.present from_option id].
    rewrite Hne. cbn [orb]. rewrite Hdec, Hexp. reflexivity. }
  rewrite E. destruct (onProfile_keeps VNull a) as (Hs & _ & _).
  split; [exact Hs|]. split; [|apply onProfile_user].
  rewrite onProfile_sent, getCurrentUser_sent.
  unfold bearer, Str.or_item. rewrite Hid, Hacc. cbn [Str.present]. rewrite Hne. reflexivity.
Qed.

End mount.

(** A tab holding the text [garbage] as ID token beside an access token. *)
Lemma undecodable_id_token_purges_all_witness :
  Api.getAccessToken (Scenario.page_holding "garbage") = Some "opaque-access-token"
  /\ AuthContext.bootstrap (B := Scenario.welcoming) Scenario.now
       (AuthContext.mounted (Scenario.page_holding "garbage"))
     = {| AuthContext.world := snd (Api.clearTokens (Scenario.page_holding "garbage"));
          AuthContext.user := VNull; AuthContext.loading := false |}
  /\ Api.getAccessToken
       (AuthContext.world
          (AuthContext.bootstrap (B := Scenario.welcoming) Scenario.now
             (AuthContext.mounted (Scenario.page_holding "garbage")))) = None
  /\ Api.getIdToken
       (AuthContext.world
          (AuthContext.bootstrap (B := Scenario.welcoming) Scenario.now
             (AuthContext.mounted (Scenario.page_holding "garbage")))) = None
  /\ Api.sent
       (AuthContext.world
          (AuthContext.bootstrap (B := Scenario.welcoming) Scenario.now
             (AuthContext.mounted (Scenario.page_holding "garbage")))) = [].
Proof.
  split; [vm_compute; reflexivity|].
  apply (undecodable_id_token_purges_all (B := Scenario.welcoming) Scenario.now
           (AuthContext.mounted (Scenario.page_holding "garbage")) "garbage");
    vm_compute; reflexivity.
Defined.

(** A tab holding a valid token as access token only, and a gateway that
    rejects the profile call: the token is kept and sent, and the user stays
    signed out. *)
Lemma access_token_alone_gives_no_identity_witness :
  Api.sessionStorage
    (AuthContext.world
       (AuthContext.bootstrap (B := Scenario.accepting) Scenario.now
          (AuthContext.mounted
             (Scenario.page_with_access_token Scenario.id_token_groups_list))))
  = {[ Api.TOKEN_STORAGE_KEY := Scenario.id_token_groups_list ]}
  /\ Api.sent
       (AuthContext.world
          (AuthContext.bootstrap (B := Scenario.accepting) Scenario.now
             (AuthContext.mounted
                (Scenario.page_with_access_token Scenario.id_token_groups_list))))
     = [Api.profile_request (B := Scenario.accepting) Scenario.id_token_groups_list]
  /\ AuthContext.user
       (AuthContext.bootstrap (B := Scenario.accepting) Scenario.now
          (AuthContext.mounted
             (Scenario.page_with_access_token Scenario.id_token_groups_list)))
     = VNull.
Proof.
  destruct (AuthContext.decode_exp (B := Scenario.accepting) Scenario.id_token_groups_list)
    as [[decoded exp]|] eqn:Hdec; [|vm_compute in Hdec; discriminate].
  assert (Hexp : AuthContext.expired (L := Run.lang) exp Scenario.now = false)
    by (vm_compute in Hdec; injection Hdec as <- <-; vm_compute; reflexivity).
  exact (access_token_alone_gives_no_identity (B := Scenario.accepting) Scenario.now
           (AuthContext.mounted
              (Scenario.page_with_access_token Scenario.id_token_groups_list))
           Scenario.id_token_groups_list decoded exp
           eq_refl eq_refl eq_refl Hdec Hexp).
Defined.

(** ** [Callback.tsx]: the guards of the effect and the storing of tokens *)

Section callback_page.
Context {L : Lang} {B : Browser}.
Variable decodeURIComponent : string -> option string.

Import Api Api.Notations Callback.

(** A callback that carries an [error] parameter, or lacks the code or the
    state, never reaches the exchange, even when a code and a state come
    with the error: nothing is sent, session storage (the PKCE fields
    included) is left as it was, no identity is set, the message is shown
    and the return to the home page is scheduled.  The [hasExchanged] flag
    stays unset. *)
Theorem callback_refusal_touches_nothing (params : Params) (c c' : Component) :
  hasExchanged c = false ->
  Str.present (errorParam params) = true
  \/ Str.present (code params) = false \/ Str.present (state params) = false ->
  effect decodeURIComponent params c = Some c' ->
  AuthContext.world (app (page c')) = AuthContext.world (app (page c))
  /\ AuthContext.user (app (page c')) = AuthContext.user (app (page c))
  /\ route (page c') = route (page c)
  /\ home_in_3s (page c') = true
  /\ hasExchanged c' = false
  /\ error (page c')
     = (if Str.present (errorParam params)
        then Error <$> error_message decodeURIComponent
                         (default EmptyString (errorParam params))
                         (errorDescription params)
        else Some (Error "Missing authorization code or state")).
Proof.
  intros Hx Hguard. unfold effect. rewrite Hx.
  destruct (Str.present (errorParam params)).
  - destruct (error_message _ _ _) as [msg|]; [|discriminate].
    intros [= <-]. cbn. repeat (split; [reflexivity|]). reflexivity.
  - destruct Hguard as [Hg|[Hg|Hg]]; [discriminate| |]; rewrite Hg; cbn [negb orb];
      rewrite ?orb_true_r; intros [= <-]; cbn;
      repeat (split; [reflexivity|]); reflexivity.
Qed.

(** The handler of a token response stores [tokens.access_token] as
    [setItem] converts it, whatever it is (a response without the field
    stores the text [undefined]), and the ID token only when it is truthy.
    It never rejects once both fields can be read.  When the ID token
    decodes, the identity is built from it and nothing is sent; otherwise
    the profile endpoint is asked, with the token just stored. *)
Theorem onTokens_stores (tokens access id_token : value) (w : World) :
  JS.get tokens "access_token" = Some access ->
  JS.get tokens "id_token" = Some id_token ->
  getAccessToken (snd (onTokens tokens w)) = Some (JS.to_string access)
  /\ getIdToken (snd (onTokens tokens w))
     = (if JS.truthy id_token then Some (JS.to_string id_token) else getIdToken w)
  /\ (exists user, fst (onTokens tokens w) = inr user)
  /\ match (if JS.truthy id_token then user_of_id_token id_token else None) with
     | Some user =>
         fst (onTokens tokens w) = inr user
         /\ sent (snd (onTokens tokens w)) = sent w
     | None =>
         sent (snd (onTokens tokens w))
         = match bearer (snd (onTokens tokens w)) with
           | Some token => (sent w ++ [profile_request token])%list
           | None => sent w
           end
     end.
Proof.
  intros Ha Hi.
  set (w1 := snd (storeAccessToken (JS.to_string access) w)).
  set (w2 := if JS.truthy id_token
             then snd (storeIdToken (JS.to_string id_token) w1) else w1).
  assert (E : onTokens tokens w
              = if JS.truthy id_token
                then match user_of_id_token id_token with
                     | Some user => (inr user, w2)
                     | None => getCurrentUser w2
                     end
                else getCurrentUser w2).
  { unfold onTokens, prop, w2, w1. rewrite Ha, Hi.
    unfold bind, seq, ret, storeAccessToken, storeIdToken, setItem, modify.
    destruct (JS.truthy id_token); [destruct (user_of_id_token id_token)|]; reflexivity. }
  assert (Hacc : getAccessToken w2 = Some (JS.to_string access)).
  { unfold w2, w1, getAccessToken, getItem, storeAccessToken, storeIdToken, setItem, modify.
    destruct (JS.truthy id_token); cbn; simplify_map_eq; reflexivity. }
  assert (Hid : getIdToken w2
                = if JS.truthy id_token then Some (JS.to_string id_token) else getIdToken w).
  { unfold w2, w1, getIdToken, getItem, storeAccessToken, storeIdToken, setItem, modify.
    destruct (JS.truthy id_token); cbn; simplify_map_eq; reflexivity. }
  assert (Hsent : sent w2 = sent w).
  { unfold w2, w1, storeAccessToken, storeIdToken, setItem, modify.
    destruct (JS.truthy id_token); reflexivity. }
  assert (Hcur : getAccessToken (snd (getCurrentUser w2)) = getAccessToken w2
                 /\ getIdToken (snd (getCurrentUser w2)) = getIdToken w2
                 /\ bearer (snd (getCurrentUser w2)) = bearer w2).
  { unfold bearer, getAccessToken, getIdToken, getItem.
    rewrite (getCurrentUser_frame w2). repeat split. }
  destruct Hcur as (Hc1 & Hc2 & Hc3).
  destruct (getCurrentUser_total w2) as [u Hu].
  pose proof (getCurrentUser_sent w2) as Hs. rewrite Hsent in Hs.
  rewrite E. clear E.
  destruct (JS.truthy id_token); [destruct (user_of_id_token id_token) as [user|]|]; cbn [fst snd].
  - split; [exact Hacc|]. split; [exact Hid|]. split; [eauto|]. split; [reflexivity|exact Hsent].
  - rewrite Hc1, Hc2, Hc3. split; [exact Hacc|]. split; [exact Hid|]. split; [eauto|exact Hs].
  - rewrite Hc1, Hc2, Hc3. split; [exact Hacc|]. split; [exact Hid|]. split; [eauto|exact Hs].
Qed.

End callback_page.

(** The user refused access: the code and the state that came along are not
    exchanged, and the session that [startLogin] stored is still there. *)
Lemma callback_refusal_touches_nothing_witness :
  exists c',
    Callback.effect (B := Scenario.accepting) Scenario.unescaped Scenario.refused
      (Scenario.component Scenario.callback_page) = Some c'
    /\ AuthContext.world (Callback.app (Callback.page c')) = Scenario.callback_page
    /\ Api.getItem Api.STATE_KEY (AuthContext.world (Callback.app (Callback.page c')))
       = Some Scenario.issued_state
    /\ Callback.hasExchanged c' = false
    /\ Callback.error (Callback.page c') = Some (Error "access_denied: cancelled").
Proof.
  destruct (Callback.effect (B := Scenario.accepting) Scenario.unescaped Scenario.refused
              (Scenario.component Scenario.callback_page)) as [c'|] eqn:E;
    [|vm_compute in E; discriminate].
  destruct (callback_refusal_touches_nothing (B := Scenario.accepting)
              Scenario.unescaped Scenario.refused
              (Scenario.component Scenario.callback_page) c'
              eq_refl (or_introl eq_refl) E) as (Hw & _ & _ & _ & Hx & He).
  exists c'. split; [reflexivity|]. split; [exact Hw|].
  split; [rewrite Hw; vm_compute; reflexivity|]. split; [exact Hx|].
  rewrite He. vm_compute. reflexivity.
Defined.

(** A token response without tokens: the text [undefined] is stored as the
    access token and goes to the profile endpoint as the bearer token. *)
Lemma onTokens_stores_witness :
  Api.getAccessToken
    (snd (Callback.onTokens (B := Scenario.accepting) Scenario.tokenless_response
            (Api.load_page ∅ Scenario.here)))
  = Some "undefined"
  /\ Api.sent
       (snd (Callback.onTokens (B := Scenario.accepting) Scenario.tokenless_response
               (Api.load_page ∅ Scenario.here)))
     = [Api.profile_request (B := Scenario.accepting) "undefined"].
Proof.
  destruct (onTokens_stores (B := Scenario.accepting) Scenario.tokenless_response
              VUndefined VUndefined (Api.load_page ∅ Scenario.here) eq_refl eq_refl)
    as (Hacc & _ & _ & Hsent).
  split; [exact Hacc|].
  cbn [JS.truthy] in Hsent. rewrite Hsent. vm_compute. reflexivity.
Defined.

(** The callback of a finished login, run again with the same code and
    state, fails: the state was removed with the first exchange. *)
Lemma exchange_once_witness :
  exists e,
    fst (Api.exchangeCodeForTokens (B := Scenario.accepting) "abc" Scenario.issued_state
           (snd (Api.exchangeCodeForTokens (B := Scenario.accepting) "abc"
                   Scenario.issued_state Scenario.callback_page)))
    = inl e.
Proof.
  destruct (Api.exchangeCodeForTokens (B := Scenario.accepting) "abc" Scenario.issued_state
              Scenario.callback_page) as [[e|tokens] w'] eqn:Hx;
    [vm_compute in Hx; discriminate|].
  exact (exchange_once (B := Scenario.accepting) _ _ _ _ _ Hx).
Defined.

(** A browser that sends [Origin: null] gets the 500 of a failed
    configuration, although the configuration loaded. *)
Lemma getConfig_invalid_origin_witness :
  fst (Server.getConfig (N := Scenario.service) Scenario.from_nowhere Config.cold)
  = Server.failed_to_load
  /\ Config.loadConfig (N := Scenario.service) Config.cold = inr Scenario.loaded.
Proof.
  assert (Hload : Config.loadConfig (N := Scenario.service) Config.cold = inr Scenario.loaded)
    by (vm_compute; reflexivity).
  split; [|exact Hload].
  apply (getConfig_invalid_origin (N := Scenario.service) Scenario.from_nowhere Config.cold
           Scenario.loaded Scenario.jwt_config "null" Hload);
    vm_compute; reflexivity.
Defined.

(** ** The service configuration and the stack that publishes it *)

(** No dot in a text. *)
Definition dotless (s : string) : bool :=
  forallb (fun c => negb (Ascii.eqb c ".")) (Str.chars s).

Section stack.

Lemma uniquePrefix_dotless (systemName : string) :
  dotless (Cdk.uniquePrefix systemName) = true.
Proof.
  unfold Cdk.uniquePrefix, dotless.
  induction systemName as [|a s IH]; [reflexivity|]. cbn [Str.replaceAll].
  destruct (Ascii.eqb a ".") eqn:Ha.
  - exact IH.
  - cbn [Str.chars list_ascii_of_string forallb]. rewrite Ha. exact IH.
Qed.

Lemma region_here_not_at (a : ascii) (s : string) :
  Ascii.eqb a "." = false -> Config.region_here (String a s) = None.
Proof.
  intros Ha. unfold Config.region_here.
  change (Str.strip_prefix ".auth." (String a s))
    with (if Ascii.eqb "." a then Str.strip_prefix "auth." s else None).
  rewrite Ascii.eqb_sym, Ha. reflexivity.
Qed.

Lemma domainMatch_skip (p rest : string) :
  dotless p = true -> Config.domainMatch (p ++ rest) = Config.domainMatch rest.
Proof.
  unfold dotless. induction p as [|a p IH]; [reflexivity|].
  cbn [Str.chars list_ascii_of_string forallb]. intros Hp.
  apply andb_true_iff in Hp as [Ha Hp]. apply negb_true_iff in Ha.
  change (String a p ++ rest) with (String a (p ++ rest)).
  cbn [Config.domainMatch]. rewrite (region_here_not_at a _ Ha). exact (IH Hp).
Qed.

Lemma label_dotless (l rest : string) :
  dotless l = true -> Config.label (l ++ String "." rest) = (l, String "." rest).
Proof.
  unfold dotless. induction l as [|a l IH]; [reflexivity|].
  cbn [Str.chars list_ascii_of_string forallb]. intros Hl.
  apply andb_true_iff in Hl as [Ha Hl]. apply negb_true_iff in Ha.
  change (String a l ++ String "." rest) with (String a (l ++ String "." rest)).
  cbn [Config.label]. rewrite Ha, (IH Hl). reflexivity.
Qed.

Lemma domainMatch_here (s l : string) :
  Config.region_here s = Some l -> Config.domainMatch s = Some l.
Proof.
  intros H. destruct s; cbn [Config.domainMatch]; rewrite H; reflexivity.
Qed.

Lemma domainMatch_cognitoDomain (systemName region : string) :
  Str.nonempty region = true ->
  dotless region = true ->
  Config.domainMatch (Cdk.cognitoDomain systemName region) = Some region.
Proof.
  intros Hne Hdot. unfold Cdk.cognitoDomain.
  rewrite (domainMatch_skip "https://") by reflexivity.
  rewrite domainMatch_skip by apply uniquePrefix_dotless.
  apply domainMatch_here. unfold Config.region_here.
  change (Str.strip_prefix ".auth." (".auth." ++ region ++ ".amazoncognito.com"))
    with (Some (region ++ ".amazoncognito.com")).
  cbv beta iota. rewrite (label_dotless region _ Hdot), Hne. reflexivity.
Qed.

Context {L : Lang} {N : Node}.

(** The service reads its region from the domain that the stack publishes:
    with the parameters as the Cognito stack writes them, for any system
    name, the first [loadConfig] succeeds, the region is the region of the
    stack whatever the environment says, the issuer and the key set are the
    ones of the user pool in that region, and later calls return the cached
    values without reading the parameter store. *)
Theorem service_config_from_stack (systemName stackRegion client pool : string) :
  Str.nonempty stackRegion = true ->
  dotless stackRegion = true ->
  Str.nonempty pool = true ->
  ssm_parameter "/cognito/domain" = Some (Some (Cdk.cognitoDomain systemName stackRegion)) ->
  ssm_parameter "/cognito/client-id" = Some (Some client) ->
  ssm_parameter "/cognito/user-pool-id" = Some (Some pool) ->
  exists c,
    Config.loadConfig Config.cold = inr c
    /\ Config.getCognitoConfig c = (Cdk.cognitoDomain systemName stackRegion, client)
    /\ Config.getJwtConfig c
       = inr {| Config.issuer :=
                  "https://cognito-idp." ++ stackRegion ++ ".amazonaws.com/" ++ pool;
                Config.jwksUri :=
                  ("https://cognito-idp." ++ stackRegion ++ ".amazonaws.com/" ++ pool)
                  ++ "/.well-known/jwks.json";
                Config.clientId := client;
                Config.userPoolId := pool;
                Config.region := stackRegion |}
    /\ forall other : Node, Config.loadConfig (N := other) c = inr c.
Proof.
  intros Hne Hdot Hpool Hd Hc Hp.
  eexists. split.
  { unfold Config.loadConfig. cbn [Config.cold Config.COGNITO_DOMAIN Str.nonempty].
    rewrite Hd, Hc, Hp. cbn [from_option id].
    rewrite (domainMatch_cognitoDomain systemName stackRegion Hne Hdot). reflexivity. }
  split; [reflexivity|]. split.
  - unfold Config.getJwtConfig.
    cbn [Config.USER_POOL_ID Config.COGNITO_REGION Config.CLIENT_ID].
    rewrite Hne, Hpool. reflexivity.
  - intros other. reflexivity.
Qed.

(** A domain that does not have the shape of a Cognito domain, in a process
    without region in its environment: the configuration loads and is
    cached without region, so this request and every later one is answered
    500, the parameter store not being read again. *)
Theorem custom_domain_needs_region (domain client pool : string) (req : Express.Request) :
  Str.nonempty domain = true ->
  Config.domainMatch domain = None ->
  Str.present env_region = false ->
  ssm_parameter "/cognito/domain" = Some (Some domain) ->
  ssm_parameter "/cognito/client-id" = Some (Some client) ->
  ssm_parameter "/cognito/user-pool-id" = Some (Some pool) ->
  fst (Server.getConfig req Config.cold) = Server.failed_to_load
  /\ Config.COGNITO_DOMAIN (snd (Server.getConfig req Config.cold)) = domain
  /\ forall (other : Node) (later : Express.Request),
       Server.getConfig (N := other) later (snd (Server.getConfig (N := N) req Config.cold))
       = (Server.failed_to_load, snd (Server.getConfig (N := N) req Config.cold)).
Proof.
  intros Hne Hm Henv Hd Hc Hp.
  assert (Hr : Str.item_or env_region EmptyString = EmptyString).
  { unfold Str.present in Henv. unfold Str.item_or.
    destruct env_region as [r|]; [rewrite Henv|]; reflexivity. }
  assert (E : Server.getConfig req Config.cold
              = (Server.failed_to_load,
                 {| Config.COGNITO_DOMAIN := domain; Config.CLIENT_ID := client;
                    Config.USER_POOL_ID := pool; Config.COGNITO_REGION := EmptyString |})).
  { unfold Server.getConfig, Config.loadConfig.
    cbn [Config.cold Config.COGNITO_DOMAIN Str.nonempty].
    rewrite Hd, Hc, Hp. cbn [from_option id]. rewrite Hm, Hr.
    unfold Config.getJwtConfig. cbn [Config.USER_POOL_ID Config.COGNITO_REGION Str.nonempty].
    rewrite orb_true_r. reflexivity. }
  rewrite E. cbn [fst snd Config.COGNITO_DOMAIN]. split; [reflexivity|]. split; [reflexivity|].
  intros other later. unfold Server.getConfig, Config.loadConfig.
  cbn [Config.COGNITO_DOMAIN]. rewrite Hne.
  unfold Config.getJwtConfig. cbn [Config.USER_POOL_ID Config.COGNITO_REGION Str.nonempty].
  rewrite orb_true_r. reflexivity.
Qed.

(** Every answer of [getConfig] carries the cross-origin headers, the error
    answer included; it is either the 500 that names no cause or a 200; and
    the cache afterwards is the one before, or the loaded configuration. *)
Theorem getConfig_answers (req : Express.Request) (c : Config.Cache) :
  Express.sent_headers (fst (Server.getConfig req c)) = Express.cors_headers
  /\ (fst (Server.getConfig req c) = Server.failed_to_load
      \/ Express.status (fst (Server.getConfig req c)) = 200)
  /\ (snd (Server.getConfig req c) = c
      \/ Config.loadConfig c = inr (snd (Server.getConfig req c))).
Proof.
  unfold Server.getConfig.
  destruct (Config.loadConfig c) as [e|c'];
    [split; [reflexivity|split; left; reflexivity]|].
  destruct (Config.getJwtConfig c') as [e|jwt];
    [split; [reflexivity|split; [left|right]; reflexivity]|].
  destruct (Str.nonempty _); [destruct (URL_origin _)|];
    (split; [reflexivity|split; [first [left; reflexivity|right; reflexivity]
                                |right; reflexivity]]).
Qed.

End stack.

Section registered.
Context {L : Lang} {B : Browser}.

Import Api Api.Notations.

(** From an origin that the stack registers as logout URL (the deployed
    front end or the local development server), the redirect URI that
    [startLogin] stores and sends is one of the callback URLs that the stack
    registers with the user pool client. *)
Theorem startLogin_redirect_is_registered (cloudfrontUrl : string) (w w1 : World) :
  origin w ∈ Cdk.logoutUrls cloudfrontUrl ->
  loadCognitoConfig w = (inr tt, w1) ->
  configured w1 = true ->
  URL_valid (authorize_url w1) = true ->
  exists nav uri,
    href (snd (startLogin w)) = Some nav
    /\ query_get "redirect_uri" (query nav) = Some uri
    /\ getItem REDIRECT_URI_KEY (snd (startLogin w)) = Some uri
    /\ uri ∈ Cdk.callbackUrls cloudfrontUrl.
Proof.
  intros Ho Hload Hcfg Hurl.
  rewrite (startLogin_success w w1 Hload Hcfg Hurl).
  eexists _, (getRedirectUri w).
  split; [reflexivity|]. split; [reflexivity|].
  split; [unfold getItem; cbn; simplify_map_eq; reflexivity|].
  unfold getRedirectUri, Cdk.callbackUrls, Cdk.logoutUrls in *.
  apply elem_of_cons in Ho as [->|Ho]; [left|].
  apply elem_of_cons in Ho as [->|Ho]; [right; left|inversion Ho].
Qed.

End registered.

(** The system [uptick.art] deployed in eu-west-1: the prefix of the domain
    is [uptick-art] and the region is read back from the domain. *)
Lemma service_config_from_stack_witness :
  Cdk.cognitoDomain "uptick.art" "eu-west-1"
  = "https://uptick-art.auth.eu-west-1.amazoncognito.com"
  /\ exists c,
       Config.loadConfig (N := Run.node Scenario.deployed) Config.cold = inr c
       /\ Config.getCognitoConfig c
          = (Cdk.cognitoDomain "uptick.art" "eu-west-1", "client-1")
       /\ Config.getJwtConfig c
          = inr {| Config.issuer :=
                     "https://cognito-idp." ++ "eu-west-1" ++ ".amazonaws.com/"
                     ++ "eu-west-1_AbCdEf";
                   Config.jwksUri :=
                     ("https://cognito-idp." ++ "eu-west-1" ++ ".amazonaws.com/"
                      ++ "eu-west-1_AbCdEf") ++ "/.well-known/jwks.json";
                   Config.clientId := "client-1";
                   Config.userPoolId := "eu-west-1_AbCdEf";
                   Config.region := "eu-west-1" |}
       /\ forall other : @Node Run.lang, Config.loadConfig (N := other) c = inr c.
Proof.
  split; [vm_compute; reflexivity|].
  apply (service_config_from_stack (N := Run.node Scenario.deployed)
           "uptick.art" "eu-west-1" "client-1" "eu-west-1_AbCdEf");
    vm_compute; reflexivity.
Defined.

(** A custom domain and no region in the environment. *)
Lemma custom_domain_needs_region_witness :
  fst (Server.getConfig (N := Run.node Scenario.custom_domain) Scenario.from_origin
         Config.cold)
  = Server.failed_to_load
  /\ Config.COGNITO_DOMAIN
       (snd (Server.getConfig (N := Run.node Scenario.custom_domain) Scenario.from_origin
               Config.cold))
     = "https://auth.example.com"
  /\ forall (other : @Node Run.lang) (later : Express.Request),
       Server.getConfig (N := other) later
         (snd (Server.getConfig (N := Run.node Scenario.custom_domain) Scenario.from_origin
                 Config.cold))
       = (Server.failed_to_load,
          snd (Server.getConfig (N := Run.node Scenario.custom_domain) Scenario.from_origin
                 Config.cold)).
Proof.
  apply (custom_domain_needs_region (N := Run.node Scenario.custom_domain)
           "https://auth.example.com" "client-1" "eu-west-1_AbCdEf" Scenario.from_origin);
    vm_compute; reflexivity.
Defined.

(** The front end of [example.com], served from the URL the stack derives. *)
Lemma startLogin_redirect_is_registered_witness :
  exists nav uri,
    Api.href (snd (Api.startLogin (B := Scenario.accepting)
                     (Api.load_page ∅ (Cdk.cloudfrontUrl "example.com"))))
    = Some nav
    /\ query_get "redirect_uri" (Api.query nav) = Some uri
    /\ Api.getItem Api.REDIRECT_URI_KEY
         (snd (Api.startLogin (B := Scenario.accepting)
                 (Api.load_page ∅ (Cdk.cloudfrontUrl "example.com"))))
       = Some uri
    /\ uri ∈ Cdk.callbackUrls (Cdk.cloudfrontUrl "example.com").
Proof.
  apply (startLogin_redirect_is_registered (B := Scenario.accepting)
           (Cdk.cloudfrontUrl "example.com")
           (Api.load_page ∅ (Cdk.cloudfrontUrl "example.com"))
           (snd (Api.loadCognitoConfig (B := Scenario.accepting)
                   (Api.load_page ∅ (Cdk.cloudfrontUrl "example.com")))));
    [constructor|vm_compute; reflexivity..].
Defined.
